(** * pr_reviewer: the review pipeline of [src/agent.py]

    A shallow embedding of [PRReviewConfig] and [PRReviewer] and of the
    entry point of [run_reviewer.py].

    - Python [str] is [string], Python [int] is [Z], [None]-able values are
      [option], a [dict] keyed by strings is a [gmap string _].
    - Code that may raise returns a [result]; [try]/[except Exception] is
      [try_except].
    - The calls the program makes to the outside (PyGithub, the OpenAI client,
      aiohttp, the clock, the event loop) are the constructors of [call]; a
      coroutine is a tree [prog] of such calls, and a handler over a world
      state answers them.  The interpreter [run] records every call with its
      answer in a trace.
    - [asyncio.gather] interleaves the calls of its tasks in an order chosen
      by the environment and returns the results in task order.
    - [logger] calls have no influence on control flow and are left out. *)

From Stdlib Require Import ZArith QArith_base String Ascii Lia.
From stdpp Require Import base list gmap strings.

Set Implicit Arguments.
Unset Strict Implicit.
Local Open Scope Z_scope.

(** ** Python values *)

Module Py.

(** An exception object; [str e] is its message. *)
Inductive exn : Type :=
| Exception (cls msg : string).

Definition str (e : exn) : string :=
  match e with Exception _ msg => msg end.

Inductive result (A : Type) : Type :=
| Ok (a : A)
| Raise (e : exn).
Arguments Ok {A} a.
Arguments Raise {A} e.

Definition is_ok {A} (r : result A) : bool :=
  match r with Ok _ => true | Raise _ => false end.

Definition nl : string := String "010"%char EmptyString.

(** [str.lower] on the ASCII letters. *)
Definition lower_ascii (c : ascii) : ascii :=
  let n := nat_of_ascii c in
  if (Nat.leb 65 n && Nat.leb n 90)%bool then ascii_of_nat (n + 32) else c.

Fixpoint lower (s : string) : string :=
  match s with
  | EmptyString => EmptyString
  | String c s' => String (lower_ascii c) (lower s')
  end.

(** [s.split(sep)] for a separator of one character: the pieces between the
    occurrences of [sep], never an empty list. *)
Fixpoint split (sep : ascii) (s : string) : list string :=
  match s with
  | EmptyString => [EmptyString]
  | String c s' =>
      if Ascii.eqb c sep then EmptyString :: split sep s'
      else match split sep s' with
           | [] => [String c EmptyString]
           | p :: ps => String c p :: ps
           end
  end.

(** [l[-1]] *)
Definition index_last {A} (l : list A) : result A :=
  match last l with
  | Some a => Ok a
  | None => Raise (Exception "IndexError" "list index out of range")
  end.

(** [l[0]] *)
Definition index_first {A} (l : list A) : result A :=
  match l with
  | a :: _ => Ok a
  | [] => Raise (Exception "IndexError" "list index out of range")
  end.

(** [sep.join(l)] *)
Fixpoint join (sep : string) (l : list string) : string :=
  match l with
  | [] => ""
  | [a] => a
  | a :: l' => a +:+ sep +:+ join sep l'
  end.

(** [d.get(k, default)] *)
Definition dict_get {V} (d : gmap string V) (k : string) (default : V) : V :=
  match d !! k with
  | Some v => v
  | None => default
  end.

(** The bound of a slice against a sequence of length [len]: a negative bound
    counts from the end, and every bound is clipped to [0, len]. *)
Definition slice_bound (len i : Z) : Z :=
  if i <? 0 then Z.max 0 (i + len) else Z.min i len.

(** [l[lo:hi]] *)
Definition slice {A} (l : list A) (lo hi : Z) : list A :=
  let len := Z.of_nat (length l) in
  let lo' := slice_bound len lo in
  let hi' := slice_bound len hi in
  take (Z.to_nat (hi' - lo')) (drop (Z.to_nat lo') l).

(** [l[:hi]] *)
Definition slice_to {A} (l : list A) (hi : Z) : list A := slice l 0 hi.

(** [range(start, stop, step)]: a zero step raises [ValueError]. *)
Definition range (start stop step : Z) : result (list Z) :=
  if step =? 0 then
    Raise (Exception "ValueError" "range() arg 3 must not be zero")
  else
    let n :=
      if 0 <? step then
        if start <? stop then (stop - start - 1) / step + 1 else 0
      else
        if stop <? start then (start - stop - 1) / (- step) + 1 else 0 in
    Ok (map (fun k : nat => start + Z.of_nat k * step) (seq 0 (Z.to_nat n))).

(** The text an f-string puts for a value that is a [str] or [None]. *)
Definition format (v : option string) : string :=
  match v with
  | Some s => s
  | None => "None"
  end.

(** [v or ""] for a value that is a [str] or [None]. *)
Definition or_empty (v : option string) : string :=
  match v with
  | Some s => s
  | None => ""
  end.

End Py.
Export Py.

(** ** The data of the program *)

(** [PRReviewConfig] *)
Record PRReviewConfig : Type := {
  max_files_to_review : Z;
  max_changes_per_file : Z;
  openai_model : string;
  openai_temperature : Q;
  batch_size : Z;
  review_categories : list string;
  language_specific_rules : gmap string (list string);
  ignore_patterns : list string
}.

(** [PRReviewConfig()], every field at its default. *)
Definition default_config : PRReviewConfig := {|
  max_files_to_review := 50;
  max_changes_per_file := 500;
  openai_model := "gpt-4";
  openai_temperature := Qmake 3 10;
  batch_size := 5;
  review_categories :=
    ["code_quality"; "security"; "performance"; "maintainability"; "testing"];
  language_specific_rules :=
    <["python" := ["PEP 8 compliance"; "Type hints"; "Docstrings";
                   "Error handling"; "Code complexity"]]>
    (<["javascript" := ["ESLint rules"; "Modern ES6+ features";
                        "Error handling"; "Code organization"]]> ∅);
  ignore_patterns := ["*.lock"; "*.md"; "*.txt"]
|}.

(** What the program reads of the objects PyGithub hands out. *)
Record Repository : Type := { full_name : string }.

Record PullRequest : Type := {
  number : Z;
  title : string;
  body : option string;
  base_ref : string;
  head_ref : string;
  created_at : string;
  updated_at : string
}.

(** An element of [pr.get_files()]; [patch] is [None] for a file without a
    textual diff. *)
Record File : Type := {
  filename : string;
  patch : option string
}.

(** The value of [repo.get_contents(path, ref)]: a [ContentFile], of which
    the program takes [decoded_content.decode('utf-8')] (which may raise
    [UnicodeDecodeError]), or, for a directory, a list, which has no attribute
    [decoded_content]. *)
Inductive Contents : Type :=
| ContentFile (decoded_utf8 : result string)
| ContentList.

(** One element of [messages]. *)
Record message : Type := { role : string; content : string }.

(** The value of [chat.completions.create]: for every choice its
    [message.content], which may be [None]. *)
Record ChatCompletion : Type := { choices : list (option string) }.

(** The handles of [aiohttp.ClientSession] and [openai.AsyncOpenAI]. *)
Record ClientSession : Type := { session_id : nat }.
Record AsyncOpenAI : Type := { client_id : nat; api_key : string }.

(** The dictionary built for one file: [filename], [analysis], [timestamp]. *)
Record Review : Type := {
  r_filename : string;
  r_analysis : option string;
  r_timestamp : string
}.

(** The dictionary [fetch_pr_details] returns. *)
Record PRDetails : Type := {
  d_title : string;
  d_description : option string;
  d_files : list string;
  d_base_branch : string;
  d_head_branch : string;
  d_created_at : string;
  d_updated_at : string
}.

(** [PRReviewer]: the fields of [self]. *)
Record PRReviewer : Type := {
  github_token : string;
  openai_api_key : string;
  config : PRReviewConfig;
  session : option ClientSession;
  openai_client : option AsyncOpenAI
}.

(** ** Calls to the outside, coroutines and their runs *)

(** A call and the type of its answer.  [Schedule n] asks the event loop in
    which order the [n] tasks of a [gather] take their steps; [InTask k c] is
    the call [c] made by task [k] of a [gather]. *)
Inductive call : Type -> Type :=
| GetRepo (name : string) : call (result Repository)
| GetPull (repo : Repository) (pr_number : Z) : call (result PullRequest)
| GetFiles (pr : PullRequest) : call (result (list File))
| GetContents (repo : Repository) (path ref : string) : call (result Contents)
| CreateReview (pr : PullRequest) (body event : string) : call (result unit)
| ChatCreate (client : AsyncOpenAI) (model : string) (messages : list message)
    (temperature : Q) : call (result ChatCompletion)
| UtcNowIso : call string
| NewSession : call (result ClientSession)
| NewClient (key : string) : call (result AsyncOpenAI)
| CloseSession (s : ClientSession) : call (result unit)
| CloseClient (c : AsyncOpenAI) : call (result unit)
| Schedule (n : nat) : call (list nat)
| InTask (k : nat) (R : Type) (c : call R) : call R.

(** A coroutine: it returns, or makes a call and goes on with the answer. *)
Inductive prog (A : Type) : Type :=
| Ret (a : A)
| Do (R : Type) (c : call R) (k : R -> prog A).
Arguments Ret {A} a.
Arguments Do {A R} c k.

Fixpoint bind {A B} (p : prog A) (f : A -> prog B) : prog B :=
  match p with
  | Ret a => f a
  | Do c k => Do c (fun r => bind (k r) f)
  end.

(** [await] of one call. *)
Definition await {R} (c : call R) : prog R := Do c Ret.

Notation "x <- p ;; q" := (bind p (fun x => q))
  (at level 100, p at next level, right associativity).

(** A step that may raise: the exception ends the block. *)
Notation "x <-? p ;; q" :=
  (bind p (fun r => match r with Ok x => q | Raise e => Ret (Raise e) end))
  (at level 100, p at next level, right associativity).

(** [try: body except Exception as e: handler e] *)
Definition try_except {A} (body : prog (result A))
    (handler : exn -> prog (result A)) : prog (result A) :=
  r <- body ;;
  match r with
  | Ok a => Ret (Ok a)
  | Raise e => handler e
  end.

(** The handler [logger.error(...); raise]. *)
Definition reraise {A} (e : exn) : prog (result A) := Ret (Raise e).

(** The outside: a state and an answer to every call. *)
Definition handler (W : Type) : Type := forall R, call R -> W -> R * W.

Inductive event : Type :=
| Event (R : Type) (c : call R) (r : R).
Arguments Event {R} c r.

(** A run: the value returned, the final state of the outside, and the calls
    made with their answers, in order. *)
Fixpoint run {W A} (h : handler W) (p : prog A) (w : W) : A * W * list event :=
  match p with
  | Ret a => (a, w, [])
  | Do c k =>
      let '(r, w1) := h _ c w in
      let '(a, w2, tr) := run h (k r) w1 in
      (a, w2, Event c r :: tr)
  end.

Definition value_of {A W} (o : A * W * list event) : A := o.1.1.
Definition trace_of {A W} (o : A * W * list event) : list event := o.2.

(** ** [asyncio.gather] with [return_exceptions=True] *)

(** [gather] is asyncio's; it is modelled after its documentation: the
    awaitables run concurrently on the one thread of the event loop, which
    hands control from task to task where they await, and the list of
    results is in the order of the awaitables.  Here a call with its answer
    is one step of a task, and the event loop, asked once per [gather],
    answers with the order in which the tasks take their steps. *)

(** A task that has not returned makes its calls under its index. *)
Fixpoint in_task {A} (k : nat) (p : prog A) : prog A :=
  match p with
  | Ret a => Ret a
  | Do c kont => Do (InTask k c) (fun r => in_task k (kont r))
  end.

(** The tasks take steps in the order of the schedule: entry [k] lets task
    [k] make its next call (an entry for a task that has returned, or for no
    task, is skipped). *)
Fixpoint interleave {A} (sched : list nat) (tasks : list (prog A))
    : prog (list (prog A)) :=
  match sched with
  | [] => Ret tasks
  | k :: sched' =>
      match tasks !! k with
      | Some (Do c kont) =>
          Do (InTask k c) (fun r => interleave sched' (<[k := kont r]> tasks))
      | _ => interleave sched' tasks
      end
  end.

(** Whatever is left runs to its end, task after task; the results come in
    the order of the tasks. *)
Fixpoint drain {A} (k : nat) (tasks : list (prog A)) : prog (list A) :=
  match tasks with
  | [] => Ret []
  | t :: ts =>
      a <- in_task k t ;;
      rest <- drain (S k) ts ;;
      Ret (a :: rest)
  end.

(** A task whose coroutine raises has the exception as its result
    ([return_exceptions=True]): the tasks are of type [prog (result _)], and
    [gather] itself does not raise. *)
Definition gather {A} (tasks : list (prog A)) : prog (list A) :=
  sched <- await (Schedule (length tasks)) ;;
  tasks' <- interleave sched tasks ;;
  drain 0 tasks'.

(** ** [PRReviewer] *)

(** [os.environ['GITHUB_TOKEN']] and [os.environ['OPENAI_API_KEY']], as set
    when the module is loaded. *)
Definition env_GITHUB_TOKEN : option string := Some "xxx".
Definition env_OPENAI_API_KEY : option string := Some "xxx".

(** [a or b] for values that are a [str] or [None]: the empty string is
    false. *)
Definition or_else (a b : option string) : option string :=
  match a with
  | Some EmptyString | None => b
  | Some s => Some s
  end.

(** [PRReviewer.__init__] *)
Definition __init__ (token key : option string) : result PRReviewer :=
  match or_else token env_GITHUB_TOKEN, or_else key env_OPENAI_API_KEY with
  | Some (String c t), Some (String c' k) =>
      Ok {| github_token := String c t;
            openai_api_key := String c' k;
            config := default_config;
            session := None;
            openai_client := None |}
  | _, _ =>
      Raise (Exception "ValueError"
                       "GitHub token and OpenAI API key are required")
  end.

(** [PRReviewer.__aenter__] *)
Definition __aenter__ (self : PRReviewer) : prog (result PRReviewer) :=
  s <-? await NewSession ;;
  c <-? await (NewClient (openai_api_key self)) ;;
  Ret (Ok {| github_token := github_token self;
             openai_api_key := openai_api_key self;
             config := config self;
             session := Some s;
             openai_client := Some c |}).

(** [PRReviewer.__aexit__]; [exc_val] is the exception of the block, if any.
    It returns [None], so an exception of the block is not suppressed. *)
Definition __aexit__ (self : PRReviewer) (exc_val : option exn)
    : prog (result unit) :=
  _ <-? match session self with
        | Some s => await (CloseSession s)
        | None => Ret (Ok tt)
        end ;;
  match openai_client self with
  | Some c => await (CloseClient c)
  | None => Ret (Ok tt)
  end.

(** [PRReviewer.fetch_pr_details] *)
Definition fetch_pr_details (self : PRReviewer) (repo_name : string)
    (pr_number : Z) : prog (result PRDetails) :=
  try_except
    (repo <-? await (GetRepo repo_name) ;;
     pr <-? await (GetPull repo pr_number) ;;
     fs <-? await (GetFiles pr) ;;
     let files := map filename fs in
     Ret (Ok {| d_title := title pr;
                d_description := body pr;
                d_files := files;
                d_base_branch := base_ref pr;
                d_head_branch := head_ref pr;
                d_created_at := created_at pr;
                d_updated_at := updated_at pr |}))
    reraise.

(** *** The prompt of [_analyze_file_content] *)

(** [filename.split('.')[-1].lower()] *)
Definition file_ext_of (filename : string) : result string :=
  match index_last (split "." filename) with
  | Ok s => Ok (lower s)
  | Raise e => Raise e
  end.

(** [self.config.language_specific_rules.get(file_ext, [])] *)
Definition language_rules_of (cfg : PRReviewConfig) (file_ext : string)
    : list string :=
  dict_get (language_specific_rules cfg) file_ext [].

(** The twelve spaces in front of every line of the template. *)
Definition indent : string := "            ".

(** The f-string bound to [prompt]. *)
Definition prompt_of (filename file_ext : string) (language_rules : list string)
    (patch : string) : string :=
  nl +:+
  indent +:+ "Review the following code changes and provide feedback on:" +:+ nl +:+
  indent +:+ "1. Code quality and best practices" +:+ nl +:+
  indent +:+ "2. Potential security issues" +:+ nl +:+
  indent +:+ "3. Performance considerations" +:+ nl +:+
  indent +:+ "4. Maintainability" +:+ nl +:+
  indent +:+ "5. Testing coverage" +:+ nl +:+
  indent +:+ nl +:+
  indent +:+ "File: " +:+ filename +:+ nl +:+
  indent +:+ "Language: " +:+ file_ext +:+ nl +:+
  indent +:+ "Specific rules to check: " +:+ join ", " language_rules +:+ nl +:+
  indent +:+ nl +:+
  indent +:+ "Code changes:" +:+ nl +:+
  indent +:+ patch +:+ nl +:+
  indent +:+ nl +:+
  indent +:+ "Please provide structured feedback with specific examples and suggestions for improvement." +:+ nl +:+
  indent.

Definition system_prompt : string :=
  "You are an expert code reviewer focusing on code quality, security, and best practices.".

(** The [messages] of the completion request. *)
Definition messages_of (system user : string) : list message :=
  [ {| role := "system"; content := system |};
    {| role := "user"; content := user |} ].

(** What [_analyze_file_content] computes before its request: the extension,
    the rules, the prompt and the messages.  [content] is its first
    parameter. *)
Definition review_messages (cfg : PRReviewConfig)
    (content filename patch : string) : result (list message) :=
  match file_ext_of filename with
  | Ok file_ext =>
      let language_rules := language_rules_of cfg file_ext in
      let prompt := prompt_of filename file_ext language_rules patch in
      Ok (messages_of system_prompt prompt)
  | Raise e => Raise e
  end.

(** [self.openai_client.chat]: an attribute of [None] is an
    [AttributeError]. *)
Definition client_of (self : PRReviewer) : result AsyncOpenAI :=
  match openai_client self with
  | Some c => Ok c
  | None => Raise (Exception "AttributeError"
                             "'NoneType' object has no attribute 'chat'")
  end.

(** [PRReviewer._analyze_file_content] *)
Definition _analyze_file_content (self : PRReviewer)
    (content filename patch : string) : prog (result Review) :=
  try_except
    (messages <-? Ret (review_messages (config self) content filename patch) ;;
     client <-? Ret (client_of self) ;;
     response <-? await (ChatCreate client (openai_model (config self))
                           messages (openai_temperature (config self))) ;;
     analysis <-? Ret (index_first (choices response)) ;;
     timestamp <- await UtcNowIso ;;
     Ret (Ok {| r_filename := filename;
                r_analysis := analysis;
                r_timestamp := timestamp |}))
    reraise.

(** [content.decoded_content.decode('utf-8') if hasattr(content,
    'decoded_content') else ""] *)
Definition file_content_of (content : Contents) : result string :=
  match content with
  | ContentFile decoded => decoded
  | ContentList => Ok ""
  end.

(** [PRReviewer._analyze_file] *)
Definition _analyze_file (self : PRReviewer) (repo : Repository)
    (pr : PullRequest) (file : File) : prog (result Review) :=
  try_except
    (content <-? await (GetContents repo (filename file) (head_ref pr)) ;;
     file_content <-? Ret (file_content_of content) ;;
     _analyze_file_content self file_content (filename file)
       (or_empty (patch file)))
    (fun e =>
       timestamp <- await UtcNowIso ;;
       Ret (Ok {| r_filename := filename file;
                  r_analysis := Some ("Error analyzing file: " +:+ str e);
                  r_timestamp := timestamp |})).

(** [[r for r in batch_reviews if not isinstance(r, Exception)]] *)
Definition not_exceptions {A} (batch_reviews : list (result A)) : list A :=
  omap (fun r => match r with Ok a => Some a | Raise _ => None end)
       batch_reviews.

(** The body of the loop of [analyze_code_changes], over the values of [i]
    that are left. *)
Fixpoint for_batches (self : PRReviewer) (repo : Repository) (pr : PullRequest)
    (files : list File) (idxs : list Z) (reviews : list Review)
    : prog (list Review) :=
  match idxs with
  | [] => Ret reviews
  | i :: idxs' =>
      let batch := slice files i (i + batch_size (config self)) in
      let tasks := map (_analyze_file self repo pr) batch in
      batch_reviews <- gather tasks ;;
      for_batches self repo pr files idxs'
        (reviews ++ not_exceptions batch_reviews)
  end.

(** [PRReviewer.analyze_code_changes] *)
Definition analyze_code_changes (self : PRReviewer) (repo_name : string)
    (pr_number : Z) : prog (result (list Review)) :=
  try_except
    (repo <-? await (GetRepo repo_name) ;;
     pr <-? await (GetPull repo pr_number) ;;
     files <-? await (GetFiles pr) ;;
     let files := slice_to files (max_files_to_review (config self)) in
     idxs <-? Ret (range 0 (Z.of_nat (length files))
                     (batch_size (config self))) ;;
     reviews <- for_batches self repo pr files idxs [] ;;
     Ret (Ok reviews))
    reraise.

(** The text [post_review] builds in [review_body]. *)
Definition review_header : string := "## AI Code Review Summary" +:+ nl +:+ nl.

Definition review_section (review : Review) : string :=
  "### " +:+ r_filename review +:+ nl +:+
  format (r_analysis review) +:+ nl +:+ nl.

Definition review_body_of (reviews : list Review) : string :=
  fold_left (fun review_body review => review_body +:+ review_section review)
            reviews review_header.

(** [PRReviewer.post_review] *)
Definition post_review (self : PRReviewer) (repo_name : string)
    (pr_number : Z) (reviews : list Review) : prog (result unit) :=
  try_except
    (repo <-? await (GetRepo repo_name) ;;
     pr <-? await (GetPull repo pr_number) ;;
     let review_body := review_body_of reviews in
     _ <-? await (CreateReview pr review_body "COMMENT") ;;
     Ret (Ok tt))
    reraise.

(** [PRReviewer.review_pr] *)
Definition review_pr (self : PRReviewer) (repo_name : string)
    (pr_number : Z) : prog (result unit) :=
  try_except
    (pr_details <-? fetch_pr_details self repo_name pr_number ;;
     reviews <-? analyze_code_changes self repo_name pr_number ;;
     _ <-? post_review self repo_name pr_number reviews ;;
     Ret (Ok tt))
    reraise.

(** [async with reviewer: body]: [__aexit__] runs whether or not the body
    raised; an exception of [__aexit__] takes the place of the one of the
    body. *)
Definition async_with {A} (self : PRReviewer)
    (block : PRReviewer -> prog (result A)) : prog (result A) :=
  reviewer <-? __aenter__ self ;;
  r <- block reviewer ;;
  x <- __aexit__ reviewer (match r with Ok _ => None | Raise e => Some e end) ;;
  match x with
  | Ok _ => Ret r
  | Raise e => Ret (Raise e)
  end.

(** [main] of [run_reviewer.py], after the arguments are parsed. *)
Definition main (repo : string) (pr : Z) : prog (result unit) :=
  match __init__ None None with
  | Ok reviewer => async_with reviewer (fun reviewer => review_pr reviewer repo pr)
  | Raise e => Ret (Raise e)
  end.

(** ** A scripted outside, to run the program on concrete inputs *)

Module Script.

(** The answers of the outside; the state counts the calls answered, and the
    clock shows that count. *)
Record script : Type := {
  repo_reply : nat -> result Repository;
  pull_reply : nat -> result PullRequest;
  files_reply : result (list File);
  contents_reply : string -> result Contents;
  chat_reply : list message -> result ChatCompletion;
  review_reply : result unit;
  close_session_reply : result unit;
  close_client_reply : result unit;
  schedule_reply : list nat
}.

Definition clock (n : nat) : string :=
  String (ascii_of_nat (48 + n mod 10)) EmptyString.

Fixpoint answer (s : script) (R : Type) (c : call R) (n : nat) {struct c} : R :=
  match c in call R return R with
  | GetRepo _ => repo_reply s n
  | GetPull _ _ => pull_reply s n
  | GetFiles _ => files_reply s
  | GetContents _ path _ => contents_reply s path
  | CreateReview _ _ _ => review_reply s
  | ChatCreate _ _ messages _ => chat_reply s messages
  | UtcNowIso => clock n
  | NewSession => Ok {| session_id := n |}
  | NewClient key => Ok {| client_id := n; api_key := key |}
  | CloseSession _ => close_session_reply s
  | CloseClient _ => close_client_reply s
  | Schedule _ => schedule_reply s
  | InTask _ c' => answer s c' n
  end.

Definition scripted (s : script) : handler nat :=
  fun R c n => (answer s c n, S n).

Definition the_repo : Repository := {| full_name := "org/repo" |}.

Definition the_pull : PullRequest := {|
  number := 42; title := "Add feature"; body := None;
  base_ref := "main"; head_ref := "feature";
  created_at := "2024-01-01"; updated_at := "2024-01-02" |}.

Definition file (name : string) : File :=
  {| filename := name; patch := Some ("+ " +:+ name) |}.

Definition seven_files : list File :=
  map file ["a.py"; "b.js"; "README.md"; "Makefile"; "e.PY"; "f.txt"; "g.c"].

(** A reviewer inside its [async with] block. *)
Definition reviewer (max_files batch : Z) : PRReviewer := {|
  github_token := "xxx";
  openai_api_key := "xxx";
  config := {|
    max_files_to_review := max_files;
    max_changes_per_file := 500;
    openai_model := "gpt-4";
    openai_temperature := Qmake 3 10;
    batch_size := batch;
    review_categories := review_categories default_config;
    language_specific_rules := language_specific_rules default_config;
    ignore_patterns := ignore_patterns default_config |};
  session := Some {| session_id := 0 |};
  openai_client := Some {| client_id := 1; api_key := "xxx" |} |}.

(** Every call succeeds, except the content of [b.js], which is not found,
    and the completion for [e.PY], which is throttled. *)
Definition two_failures : script := {|
  repo_reply := fun _ => Ok the_repo;
  pull_reply := fun _ => Ok the_pull;
  files_reply := Ok seven_files;
  contents_reply := fun path =>
    if String.eqb path "b.js" then Raise (Exception "GithubException" "404 Not Found")
    else Ok (ContentFile (Ok ("content of " +:+ path)));
  chat_reply := fun messages =>
    match messages with
    | [_; user] =>
        if String.eqb (content user)
             (prompt_of "e.PY" "py" [] "+ e.PY")
        then Raise (Exception "RateLimitError" "429 Too Many Requests")
        else Ok {| choices := [Some "Looks good."] |}
    | _ => Raise (Exception "BadRequestError" "400")
    end;
  review_reply := Ok tt;
  close_session_reply := Ok tt;
  close_client_reply := Ok tt;
  schedule_reply := [2; 0; 1; 1; 7; 0; 2]%nat
|}.

(** The repository is not found, and closing the HTTP session fails. *)
Definition close_fails : script := {|
  repo_reply := fun _ => Raise (Exception "UnknownObjectException" "404 Not Found");
  pull_reply := fun _ => Ok the_pull;
  files_reply := Ok seven_files;
  contents_reply := fun path => Ok (ContentFile (Ok ""));
  chat_reply := fun _ => Ok {| choices := [Some "Looks good."] |};
  review_reply := Ok tt;
  close_session_reply := Raise (Exception "ClientError" "session close failed");
  close_client_reply := Ok tt;
  schedule_reply := []
|}.

(** The list of files cannot be fetched. *)
Definition no_file_list : script := {|
  repo_reply := fun _ => Ok the_repo;
  pull_reply := fun _ => Ok the_pull;
  files_reply := Raise (Exception "GithubException" "502 Bad Gateway");
  contents_reply := fun path => Ok (ContentFile (Ok ""));
  chat_reply := fun _ => Ok {| choices := [Some "Looks good."] |};
  review_reply := Ok tt;
  close_session_reply := Ok tt;
  close_client_reply := Ok tt;
  schedule_reply := []
|}.

(** A change request without changed files. *)
Definition no_changes : script := {|
  repo_reply := fun _ => Ok the_repo;
  pull_reply := fun _ => Ok the_pull;
  files_reply := Ok [];
  contents_reply := fun path => Ok (ContentFile (Ok ""));
  chat_reply := fun _ => Ok {| choices := [Some "Looks good."] |};
  review_reply := Ok tt;
  close_session_reply := Ok tt;
  close_client_reply := Ok tt;
  schedule_reply := []
|}.

(** The client of the completion service cannot be created. *)
Definition no_client (s : script) : handler nat :=
  fun R c n =>
    match c in call R return R * nat with
    | NewClient _ =>
        (Raise (Exception "OpenAIError" "client could not be created"), S n)
    | c' => (answer s c' n, S n)
    end.

(** The outside of [s], except that the content of every file is bytes that
    are not UTF-8 (an image, say): [decode('utf-8')] raises. *)
Definition undecodable (s : script) : script := {|
  repo_reply := repo_reply s;
  pull_reply := pull_reply s;
  files_reply := files_reply s;
  contents_reply := fun _ =>
    Ok (ContentFile
          (Raise (Exception "UnicodeDecodeError"
                    "'utf-8' codec can't decode byte 0x89 in position 0: invalid start byte")));
  chat_reply := chat_reply s;
  review_reply := review_reply s;
  close_session_reply := close_session_reply s;
  close_client_reply := close_client_reply s;
  schedule_reply := schedule_reply s
|}.

(** A reviewer before its [async with] block. *)
Definition fresh_reviewer : PRReviewer := {|
  github_token := "xxx";
  openai_api_key := "xxx";
  config := default_config;
  session := None;
  openai_client := None |}.

End Script.


(** ** Reading a trace *)

(** The answer to a call, whatever its type. *)
Inductive answer : Type :=
| ARepo (r : result Repository)
| APull (r : result PullRequest)
| AFiles (r : result (list File))
| AContents (r : result Contents)
| ADone (r : result unit)
| AChat (r : result ChatCompletion)
| ATime (t : string)
| ASession (r : result ClientSession)
| AClient (r : result AsyncOpenAI)
| ASchedule (sched : list nat).

Fixpoint wrap {R} (c : call R) : R -> answer :=
  match c in call R return R -> answer with
  | GetRepo _ => ARepo
  | GetPull _ _ => APull
  | GetFiles _ => AFiles
  | GetContents _ _ _ => AContents
  | CreateReview _ _ _ => ADone
  | ChatCreate _ _ _ _ => AChat
  | UtcNowIso => ATime
  | NewSession => ASession
  | NewClient _ => AClient
  | CloseSession _ => ADone
  | CloseClient _ => ADone
  | Schedule _ => ASchedule
  | InTask _ c' => wrap c'
  end.

Fixpoint unwrap {R} (c : call R) : answer -> option R :=
  match c in call R return answer -> option R with
  | GetRepo _ => fun a => match a with ARepo r => Some r | _ => None end
  | GetPull _ _ => fun a => match a with APull r => Some r | _ => None end
  | GetFiles _ => fun a => match a with AFiles r => Some r | _ => None end
  | GetContents _ _ _ =>
      fun a => match a with AContents r => Some r | _ => None end
  | CreateReview _ _ _ => fun a => match a with ADone r => Some r | _ => None end
  | ChatCreate _ _ _ _ => fun a => match a with AChat r => Some r | _ => None end
  | UtcNowIso => fun a => match a with ATime t => Some t | _ => None end
  | NewSession => fun a => match a with ASession r => Some r | _ => None end
  | NewClient _ => fun a => match a with AClient r => Some r | _ => None end
  | CloseSession _ => fun a => match a with ADone r => Some r | _ => None end
  | CloseClient _ => fun a => match a with ADone r => Some r | _ => None end
  | Schedule _ => fun a => match a with ASchedule l => Some l | _ => None end
  | InTask _ c' => unwrap c'
  end.

(** What a call asks for; the call of a task is of the kind of the call it
    carries. *)
Inductive kind : Type :=
| KGetRepo | KGetPull | KGetFiles | KGetContents | KCreateReview
| KChatCreate | KUtcNow | KNewSession | KNewClient | KCloseSession
| KCloseClient | KSchedule.

Global Instance kind_eq_dec : EqDecision kind.
Proof. solve_decision. Defined.

Fixpoint kind_of {R} (c : call R) : kind :=
  match c with
  | GetRepo _ => KGetRepo
  | GetPull _ _ => KGetPull
  | GetFiles _ => KGetFiles
  | GetContents _ _ _ => KGetContents
  | CreateReview _ _ _ => KCreateReview
  | ChatCreate _ _ _ _ => KChatCreate
  | UtcNowIso => KUtcNow
  | NewSession => KNewSession
  | NewClient _ => KNewClient
  | CloseSession _ => KCloseSession
  | CloseClient _ => KCloseClient
  | Schedule _ => KSchedule
  | InTask _ c' => kind_of c'
  end.

Definition event_kind (e : event) : kind :=
  match e with Event c _ => kind_of c end.

Definition event_answer (e : event) : answer :=
  match e with Event c r => wrap c r end.

(** The kinds of the calls of a trace, in order. *)
Definition kinds (tr : list event) : list kind := map event_kind tr.

(** How many calls of kind [k] a trace has. *)
Definition count (k : kind) (tr : list event) : nat :=
  length (filter (fun k' => k' = k) (kinds tr)).

(** Whether the event is a call of task [j] of a [gather]. *)
Definition of_task (j : nat) (e : event) : bool :=
  match e with
  | Event c _ =>
      match c with
      | InTask k _ => Nat.eqb k j
      | _ => false
      end
  end.

(** What task [j] of a [gather] got to see: the answers to its calls. *)
Definition view (j : nat) (tr : list event) : list answer :=
  map event_answer (filter (fun e => of_task j e = true) tr).

(** A coroutine given the answers [ans] to its calls, one after the other:
    the value it returns, if the answers fit its calls and it returns at the
    end of them. *)
Fixpoint feed {A} (p : prog A) (ans : list answer) : option A :=
  match p, ans with
  | Ret a, [] => Some a
  | Do c k, a :: ans' =>
      match unwrap c a with
      | Some r => feed (k r) ans'
      | None => None
      end
  | _, _ => None
  end.

(** The review a call publishes: its body, the event kind given to
    [create_review], and whether the host accepted it. *)
Fixpoint publication {R} (c : call R) : R -> option (string * string * bool) :=
  match c in call R return R -> option (string * string * bool) with
  | CreateReview _ body ev => fun r => Some (body, ev, is_ok r)
  | InTask _ c' => publication c'
  | _ => fun _ => None
  end.

(** The reviews a trace publishes. *)
Definition published (tr : list event) : list (string * string * bool) :=
  omap (fun e => match e with Event c r => publication c r end) tr.

(** A call to the repository host for the repository, the change request,
    the list of files or the publication, that raised. *)
Fixpoint host_failure {R} (c : call R) : R -> bool :=
  match c in call R return R -> bool with
  | GetRepo _ => fun r => negb (is_ok r)
  | GetPull _ _ => fun r => negb (is_ok r)
  | GetFiles _ => fun r => negb (is_ok r)
  | CreateReview _ _ _ => fun r => negb (is_ok r)
  | InTask _ c' => host_failure c'
  | _ => fun _ => false
  end.

Definition host_failed (tr : list event) : bool :=
  existsb (fun e => match e with Event c r => host_failure c r end) tr.

(** The lists of changed files the host returned, in order. *)
Fixpoint file_list {R} (c : call R) : R -> option (list File) :=
  match c in call R return R -> option (list File) with
  | GetFiles _ => fun r => match r with Ok fs => Some fs | Raise _ => None end
  | InTask _ c' => file_list c'
  | _ => fun _ => None
  end.

Definition listed (tr : list event) : list (list File) :=
  omap (fun e => match e with Event c r => file_list c r end) tr.

(** The numbers of tasks of the [gather]s of a trace, in order. *)
Definition gather_size {R} (c : call R) : option nat :=
  match c with
  | Schedule n => Some n
  | _ => None
  end.

Definition gathered (tr : list event) : list nat :=
  omap (fun e => match e with Event c _ => gather_size c end) tr.

(** Whether the event is a call of some task of a [gather]. *)
Definition in_a_task (e : event) : bool :=
  match e with
  | Event c _ =>
      match c with
      | InTask _ _ => true
      | _ => false
      end
  end.

(** A coroutine all of whose calls are of a kind in [K]. *)
Fixpoint only {A} (K : kind -> bool) (p : prog A) : Prop :=
  match p with
  | Ret _ => True
  | Do c k => K (kind_of c) = true /\ forall r, only K (k r)
  end.

(** The kinds of the calls of the analysis of one file. *)
Definition file_call (k : kind) : bool :=
  match k with
  | KGetContents | KChatCreate | KUtcNow => true
  | _ => false
  end.

(** The kinds of the calls of a batch. *)
Definition batch_call (k : kind) : bool :=
  match k with
  | KSchedule => true
  | _ => file_call k
  end.

(** The messages of the completion requests of a trace. *)
Fixpoint request_messages {R} (c : call R) : option (list message) :=
  match c with
  | ChatCreate _ _ messages _ => Some messages
  | InTask _ c' => request_messages c'
  | _ => None
  end.

Definition submitted (tr : list event) : list (list message) :=
  omap (fun e => match e with Event c _ => request_messages c end) tr.

(** The exception of an answer to a content fetch or a completion request
    that failed. *)
Definition failure_of (a : answer) : option exn :=
  match a with
  | AContents (Raise e) => Some e
  | AChat (Raise e) => Some e
  | _ => None
  end.

(** The batches of the loop of [analyze_code_changes]: for every [i] of
    [range(0, len(files), batch_size)], the slice [files[i:i + batch_size]]. *)
Definition batches_of (batch_size : Z) (files : list File)
    : result (list (list File)) :=
  match range 0 (Z.of_nat (length files)) batch_size with
  | Ok idxs => Ok (map (fun i => slice files i (i + batch_size)) idxs)
  | Raise e => Raise e
  end.

(** ** The statements of the specification that are compared with the code *)

(** The review body in the words of the specification: the header
    ["## AI Code Review Summary\n\n"], then for every finding, in the order
    of collection, ["### {filename}\n{analysis}\n\n"]. *)
Fixpoint spec_sections (findings : list Review) : string :=
  match findings with
  | [] => ""
  | f :: fs =>
      "### " +:+ r_filename f +:+ nl +:+ format (r_analysis f) +:+ nl +:+ nl
      +:+ spec_sections fs
  end.

Definition spec_review_body (findings : list Review) : string :=
  "## AI Code Review Summary" +:+ nl +:+ nl +:+ spec_sections findings.

(** The specification on the fetches of a run: the repository, the change
    request and the list of files are fetched once, and never again. *)
Definition fetched_once (tr : list event) : Prop :=
  count KGetRepo tr = 1%nat /\ count KGetPull tr = 1%nat /\
  count KGetFiles tr = 1%nat.

(** The specification on the release of the session after a block that ended
    with [primary]: both handles are closed once and the outcome of the block
    stands. *)
Definition released_quietly {W} (primary : result unit)
    (o : result unit * W * list event) : Prop :=
  value_of o = primary /\ count KCloseSession (trace_of o) = 1%nat /\
  count KCloseClient (trace_of o) = 1%nat.

(** Whether [c] occurs in [s]. *)
Fixpoint has_char (c : ascii) (s : string) : bool :=
  match s with
  | EmptyString => false
  | String c' s' => (Ascii.eqb c' c || has_char c s')%bool
  end.

(** The language key in the words of the specification: the lower-cased
    suffix after the last ['.'], the empty string if there is none. *)
Fixpoint after_last_dot (path : string) : option string :=
  match path with
  | EmptyString => None
  | String c path' =>
      match after_last_dot path' with
      | Some suffix => Some suffix
      | None => if Ascii.eqb c "." then Some path' else None
      end
  end.

Definition spec_language_key (path : string) : string :=
  match after_last_dot path with
  | Some suffix => lower suffix
  | None => ""
  end.

(** ** The environment of [__init__] *)

(** [os.environ] once [agent.py] is loaded over the environment [env]: the
    module assigns both keys (lines 17 and 18). *)
Definition load_module (env : gmap string string) : gmap string string :=
  <["OPENAI_API_KEY" := "xxx"]> (<["GITHUB_TOKEN" := "xxx"]> env).

(** [PRReviewer.__init__] over the environment [env]; [os.getenv] is the
    lookup, [None] for a missing key. *)
Definition init_in (env : gmap string string) (token key : option string)
    : result PRReviewer :=
  match or_else token (env !! "GITHUB_TOKEN"),
        or_else key (env !! "OPENAI_API_KEY") with
  | Some (String c t), Some (String c' k) =>
      Ok {| github_token := String c t;
            openai_api_key := String c' k;
            config := default_config;
            session := None;
            openai_client := None |}
  | _, _ =>
      Raise (Exception "ValueError"
                       "GitHub token and OpenAI API key are required")
  end.

(** ** Counting the calls of a coroutine *)

(** Whatever the answers, the coroutine makes [n] calls of kind [k] before it
    returns: exactly [n] when [exact], at most [n] otherwise. *)
Fixpoint spends {A} (k : kind) (exact : bool) (n : nat) (p : prog A) : Prop :=
  match p with
  | Ret _ => if exact then n = 0%nat else True
  | Do c kont =>
      if decide (kind_of c = k) then
        match n with
        | O => False
        | S m => forall r, spends k exact m (kont r)
        end
      else forall r, spends k exact n (kont r)
  end.

(** [m] calls against a count of [n]: as many when [exact], no more
    otherwise. *)
Definition fits (exact : bool) (n m : nat) : Prop :=
  if exact then m = n else (m <= n)%nat.

(** The kinds of the calls of [review_pr]. *)
Definition review_call (k : kind) : bool :=
  match k with
  | KGetRepo | KGetPull | KGetFiles | KCreateReview => true
  | _ => batch_call k
  end.

(** * Properties *)

(** ** Runs *)

Lemma run_bind {W A B} (h : handler W) (p : prog A) (f : A -> prog B) (w : W) :
  run h (bind p f) w =
    let '(a, w1, tr1) := run h p w in
    let '(b, w2, tr2) := run h (f a) w1 in
    (b, w2, tr1 ++ tr2).
Proof.
  revert w. induction p as [a | R c k IH]; intros w; simpl.
  - destruct (run h (f a) w) as [[b w2] tr2]. reflexivity.
  - destruct (h R c w) as [r w1]. rewrite IH.
    destruct (run h (k r) w1) as [[a w2] tr1].
    destruct (run h (f a) w2) as [[b w3] tr2]. reflexivity.
Qed.

Lemma unwrap_wrap {R} (c : call R) (r : R) : unwrap c (wrap c r) = Some r.
Proof. induction c; simpl; auto. Qed.

Lemma view_app (j : nat) (tr1 tr2 : list event) :
  view j (tr1 ++ tr2) = view j tr1 ++ view j tr2.
Proof. unfold view. rewrite filter_app, map_app. reflexivity. Qed.

Lemma view_cons_task (j k : nat) {R} (c : call R) (r : R) (tr : list event) :
  view j (Event (InTask k c) r :: tr) =
    if Nat.eqb k j then wrap c r :: view j tr else view j tr.
Proof.
  unfold view. rewrite filter_cons. simpl.
  destruct (Nat.eqb k j); simpl.
  - destruct (decide (true = true)); [reflexivity | congruence].
  - destruct (decide (false = true)); [congruence | reflexivity].
Qed.

Lemma view_cons_other (j : nat) (e : event) (tr : list event) :
  of_task j e = false -> view j (e :: tr) = view j tr.
Proof.
  intros He. unfold view. rewrite filter_cons.
  destruct (decide (of_task j e = true)); [congruence | reflexivity].
Qed.

(** ** [gather]: every task gets its own answers, whatever the schedule *)

Lemma interleave_local {W A} (h : handler W) (sched : list nat) :
  forall (tasks : list (prog A)) (w : W),
    length (value_of (run h (interleave sched tasks) w)) = length tasks /\
    forall (j : nat) (t : prog A), tasks !! j = Some t ->
      exists t', value_of (run h (interleave sched tasks) w) !! j = Some t' /\
        forall ans, feed t (view j (trace_of (run h (interleave sched tasks) w)) ++ ans)
                    = feed t' ans.
Proof.
  induction sched as [| k sched IH]; intros tasks w; simpl.
  - split; [reflexivity |]. intros j t Hj. exists t. split; [exact Hj | reflexivity].
  - destruct (tasks !! k) as [[a | R c kont] |] eqn:Hk; try apply IH.
    simpl. destruct (h R (InTask k c) w) as [r w1].
    specialize (IH (<[k := kont r]> tasks) w1).
    destruct (run h (interleave sched (<[k := kont r]> tasks)) w1)
      as [[tasks' w2] tr] eqn:Hrun.
    unfold value_of, trace_of in *. simpl in *.
    destruct IH as [Hlen IH]. rewrite length_insert in Hlen.
    split; [exact Hlen |]. intros j t Hj.
    rewrite view_cons_task.
    destruct (Nat.eqb_spec k j) as [-> | Hne].
    + rewrite Hk in Hj. injection Hj as <-.
      destruct (IH j (kont r)) as [t' [Ht' Hfeed]].
      { apply list_lookup_insert_eq. eapply lookup_lt_Some; eauto. }
      exists t'. split; [exact Ht' |]. intros ans. simpl.
      rewrite unwrap_wrap. apply Hfeed.
    + apply IH. rewrite list_lookup_insert_ne; auto.
Qed.

Lemma in_task_local {W A} (h : handler W) (k : nat) (t : prog A) :
  forall (w : W),
    feed t (view k (trace_of (run h (in_task k t) w)))
      = Some (value_of (run h (in_task k t) w)) /\
    forall j, j <> k -> view j (trace_of (run h (in_task k t) w)) = [].
Proof.
  induction t as [a | R c kont IH]; intros w; simpl.
  - split; [reflexivity | intros; reflexivity].
  - destruct (h R (InTask k c) w) as [r w1]. specialize (IH r w1).
    destruct (run h (in_task k (kont r)) w1) as [[a w2] tr].
    unfold value_of, trace_of in *. simpl in *. destruct IH as [IH1 IH2].
    split.
    + rewrite view_cons_task, Nat.eqb_refl. simpl. rewrite unwrap_wrap. exact IH1.
    + intros j Hj. rewrite view_cons_task.
      destruct (Nat.eqb_spec k j); [congruence | auto].
Qed.

Lemma drain_local {W A} (h : handler W) (tasks : list (prog A)) :
  forall (k : nat) (w : W),
    length (value_of (run h (drain k tasks) w)) = length tasks /\
    (forall j, (j < k)%nat -> view j (trace_of (run h (drain k tasks) w)) = []) /\
    forall (j : nat) (t : prog A), tasks !! j = Some t ->
      exists a, value_of (run h (drain k tasks) w) !! j = Some a /\
        feed t (view (k + j) (trace_of (run h (drain k tasks) w))) = Some a.
Proof.
  induction tasks as [| t ts IH]; intros k w; simpl.
  - split; [reflexivity |]. split; [intros; reflexivity |].
    intros j t Hj. discriminate.
  - rewrite run_bind.
    pose proof (in_task_local h k t w) as [Hown Hother].
    destruct (run h (in_task k t) w) as [[a w1] tr1].
    rewrite run_bind. specialize (IH (S k) w1).
    destruct (run h (drain (S k) ts) w1) as [[rest w2] tr2].
    unfold value_of, trace_of in *. simpl in *.
    destruct IH as [Hlen [Hbelow IH]].
    rewrite app_nil_r. split; [congruence |]. split.
    + intros j Hj. rewrite view_app, Hother, Hbelow by lia. reflexivity.
    + intros [| j] t' Hj; simpl in *.
      * injection Hj as <-. exists a. split; [reflexivity |].
        rewrite Nat.add_0_r, view_app, Hbelow, app_nil_r by lia. exact Hown.
      * destruct (IH j t' Hj) as [b [Hb Hfeed]]. exists b. split; [exact Hb |].
        rewrite view_app, Hother by lia. simpl.
        replace (k + S j)%nat with (S k + j)%nat by lia. exact Hfeed.
Qed.

(** The results of [gather] are as many as the tasks, and the result at
    position [j] is what task [j] returns on the answers to its own calls. *)
Lemma gather_local {W A} (h : handler W) (tasks : list (prog A)) (w : W) :
  length (value_of (run h (gather tasks) w)) = length tasks /\
  forall (j : nat) (t : prog A), tasks !! j = Some t ->
    exists a, value_of (run h (gather tasks) w) !! j = Some a /\
      feed t (view j (trace_of (run h (gather tasks) w))) = Some a.
Proof.
  unfold gather, await. simpl.
  destruct (h _ (Schedule (length tasks)) w) as [sched w1].
  rewrite run_bind.
  pose proof (interleave_local h sched tasks w1) as [Hlen1 Hloc1].
  destruct (run h (interleave sched tasks) w1) as [[tasks' w2] tr1].
  pose proof (drain_local h tasks' 0 w2) as [Hlen2 [_ Hloc2]].
  destruct (run h (drain 0 tasks') w2) as [[results w3] tr2].
  unfold value_of, trace_of in *. simpl in *.
  split; [congruence |]. intros j t Hj.
  destruct (Hloc1 j t Hj) as [t' [Ht' Hfeed]].
  destruct (Hloc2 j t' Ht') as [a [Ha Hfeed']].
  exists a. split; [exact Ha |].
  rewrite view_cons_other by reflexivity.
  rewrite view_app, Hfeed. exact Hfeed'.
Qed.

(** ** One file *)

Ltac feed_next H :=
  match type of H with
  | context [match ?ans with [] => _ | _ :: _ => _ end] =>
      is_var ans; destruct ans as [| ? ans]; simpl in H; try discriminate H
  end;
  try match type of H with
      | context [match ?a with ARepo _ => _ | _ => _ end] =>
          is_var a; destruct a; simpl in H; try discriminate H
      end.

Ltac feed_done H :=
  repeat feed_next H; injection H as <-;
  eexists; (split; [reflexivity |]); (split; [reflexivity |]);
  let Hin := fresh "Hin" in
  let Hf := fresh "Hf" in
  intros ? ? Hin Hf; simpl in Hin;
  repeat (destruct Hin as [<- | Hin]; [simpl in Hf |- *; congruence |]);
  destruct Hin.

Lemma analyze_file_feed (self : PRReviewer) (repo : Repository)
    (pr : PullRequest) (file : File) (ans : list answer) (r : result Review) :
  feed (_analyze_file self repo pr file) ans = Some r ->
  exists review, r = Ok review /\ r_filename review = filename file /\
    forall a e, In a ans -> failure_of a = Some e ->
      r_analysis review = Some ("Error analyzing file: " +:+ str e).
Proof.
  unfold _analyze_file, _analyze_file_content, try_except, reraise, await.
  simpl. intros H. feed_next H.
  destruct r0 as [content | e0]; simpl in H; [| feed_done H].
  destruct (file_content_of content) as [text | e1]; simpl in H;
    [| feed_done H].
  destruct (review_messages (config self) text (filename file)
              (or_empty (patch file))) as [msgs | e2]; simpl in H;
    [| feed_done H].
  destruct (client_of self) as [client | e3]; simpl in H; [| feed_done H].
  feed_next H.
  destruct r0 as [response | e4]; simpl in H; [| feed_done H].
  destruct (index_first (choices response)) as [analysis | e5]; simpl in H;
    feed_done H.
Qed.

(** ** The kinds of calls of a coroutine *)

Lemma only_bind {A B} (K : kind -> bool) (p : prog A) (f : A -> prog B) :
  only K p -> (forall a, only K (f a)) -> only K (bind p f).
Proof.
  intros Hp Hf. induction p as [a | R c k IH]; simpl in *; [apply Hf |].
  destruct Hp as [Hc Hk]. split; [exact Hc |]. intros r. apply IH, Hk.
Qed.

Lemma only_in_task {A} (K : kind -> bool) (j : nat) (p : prog A) :
  only K p -> only K (in_task j p).
Proof.
  induction p as [a | R c k IH]; simpl; [auto |].
  intros [Hc Hk]. split; [exact Hc |]. intros r. apply IH, Hk.
Qed.

Lemma only_run {W A} (K : kind -> bool) (h : handler W) (p : prog A) :
  only K p -> forall w, Forall (fun k => K k = true) (kinds (trace_of (run h p w))).
Proof.
  induction p as [a | R c k IH]; simpl; intros Hp w.
  - constructor.
  - destruct Hp as [Hc Hk]. destruct (h R c w) as [r w1].
    specialize (IH r (Hk r) w1).
    destruct (run h (k r) w1) as [[a w2] tr]. unfold trace_of in *; simpl in *.
    constructor; assumption.
Qed.

Lemma only_interleave {A} (K : kind -> bool) (sched : list nat) :
  forall tasks : list (prog A),
    Forall (only K) tasks ->
    only K (interleave sched tasks) /\
    forall W (h : handler W) w,
      Forall (only K) (value_of (run h (interleave sched tasks) w)).
Proof.
  induction sched as [| k sched IH]; intros tasks Htasks; simpl.
  - split; [exact I | intros; exact Htasks].
  - destruct (tasks !! k) as [[a | R c kont] |] eqn:Hk; try (apply IH; exact Htasks).
    pose proof (Forall_lookup_1 _ _ _ _ Htasks Hk) as [Hc Hkont].
    split.
    + simpl. split; [exact Hc |]. intros r.
      apply IH, Forall_insert; auto.
    + intros W h w. simpl. destruct (h R (InTask k c) w) as [r w1].
      destruct (IH (<[k := kont r]> tasks)) as [_ IH2].
      { apply Forall_insert; auto. }
      specialize (IH2 W h w1).
      destruct (run h (interleave sched (<[k := kont r]> tasks)) w1)
        as [[tasks' w2] tr].
      exact IH2.
Qed.

Lemma only_drain {A} (K : kind -> bool) (tasks : list (prog A)) :
  forall k, Forall (only K) tasks -> only K (drain k tasks).
Proof.
  induction tasks as [| t ts IH]; intros k Htasks; simpl; [exact I |].
  inversion Htasks as [| ? ? Ht Hts]; subst.
  apply only_bind; [apply only_in_task, Ht |]. intros a.
  apply only_bind; [apply IH, Hts |]. intros rest. exact I.
Qed.

Lemma analyze_file_only (self : PRReviewer) (repo : Repository)
    (pr : PullRequest) (file : File) :
  only file_call (_analyze_file self repo pr file).
Proof.
  unfold _analyze_file, _analyze_file_content, try_except, reraise, await.
  simpl. split; [reflexivity |]. intros [content | e]; simpl.
  2: { split; [reflexivity |]. intros t. exact I. }
  destruct (file_content_of content) as [text | e1]; simpl.
  2: { split; [reflexivity |]. intros t. exact I. }
  destruct (review_messages _ _ _ _) as [msgs | e2]; simpl.
  2: { split; [reflexivity |]. intros t. exact I. }
  destruct (client_of self) as [client | e3]; simpl.
  2: { split; [reflexivity |]. intros t. exact I. }
  split; [reflexivity |]. intros [response | e4]; simpl.
  2: { split; [reflexivity |]. intros t. exact I. }
  destruct (index_first (choices response)) as [analysis | e5]; simpl;
    (split; [reflexivity |]); intros t; exact I.
Qed.

(** The trace of a [gather]: the question to the event loop, then calls of
    the tasks only. *)
Lemma gather_trace {W A} (K : kind -> bool) (h : handler W)
    (tasks : list (prog A)) (w : W) :
  Forall (only K) tasks ->
  exists sched tr,
    trace_of (run h (gather tasks) w)
      = Event (Schedule (length tasks)) sched :: tr /\
    Forall (fun e => in_a_task e = true) tr /\
    Forall (fun k => K k = true) (kinds tr).
Proof.
  intros Htasks. unfold gather, await. simpl.
  destruct (h _ (Schedule (length tasks)) w) as [sched w1].
  rewrite run_bind.
  destruct (only_interleave sched Htasks) as [Hi Htasks'].
  pose proof (only_run h Hi w1) as Hk1. specialize (Htasks' W h w1).
  assert (Ht1 : Forall (fun e => in_a_task e = true)
                  (trace_of (run h (interleave sched tasks) w1))).
  { clear. revert tasks w1. induction sched as [| k sched IH]; intros tasks w; simpl.
    - constructor.
    - destruct (tasks !! k) as [[a | R c kont] |]; try apply IH.
      simpl. destruct (h R (InTask k c) w) as [r w1].
      specialize (IH (<[k := kont r]> tasks) w1).
      destruct (run h (interleave sched (<[k := kont r]> tasks)) w1)
        as [[tasks' w2] tr].
      unfold trace_of in *; simpl in *. constructor; [reflexivity | exact IH]. }
  destruct (run h (interleave sched tasks) w1) as [[tasks' w2] tr1].
  unfold value_of, trace_of in *; simpl in *.
  pose proof (only_run h (only_drain 0 Htasks') w2) as Hk2.
  assert (Ht2 : Forall (fun e => in_a_task e = true)
                  (trace_of (run h (drain 0 tasks') w2))).
  { clear. generalize 0%nat. revert w2.
    induction tasks' as [| t ts IH]; intros w k; simpl; [constructor |].
    rewrite run_bind.
    assert (Ht : forall w, Forall (fun e => in_a_task e = true)
                   (trace_of (run h (in_task k t) w))).
    { clear. induction t as [a | R c kont IHt]; intros w; simpl; [constructor |].
      destruct (h R (InTask k c) w) as [r w1]. specialize (IHt r w1).
      destruct (run h (in_task k (kont r)) w1) as [[a w2] tr].
      unfold trace_of in *; simpl in *. constructor; [reflexivity | exact IHt]. }
    specialize (Ht w).
    destruct (run h (in_task k t) w) as [[a w1] tr1].
    rewrite run_bind. specialize (IH w1 (S k)).
    destruct (run h (drain (S k) ts) w1) as [[rest w2] tr2].
    unfold trace_of in *; simpl in *. rewrite app_nil_r.
    apply Forall_app; split; assumption. }
  destruct (run h (drain 0 tasks') w2) as [[results w3] tr2].
  unfold trace_of in *; simpl in *.
  exists sched, (tr1 ++ tr2). split; [reflexivity |]. split.
  - apply Forall_app; split; assumption.
  - unfold kinds in *. rewrite map_app. apply Forall_app; split; assumption.
Qed.

(** ** What a trace of file analyses shows *)

Lemma publication_kind {R} (c : call R) (r : R) :
  kind_of c <> KCreateReview -> publication c r = None.
Proof. induction c; simpl; intros Hk; try reflexivity; [congruence | auto]. Qed.

Lemma host_failure_kind {R} (c : call R) (r : R) :
  batch_call (kind_of c) = true -> host_failure c r = false.
Proof. induction c; simpl; intros Hk; try reflexivity; try discriminate; auto. Qed.

Lemma published_app (tr1 tr2 : list event) :
  published (tr1 ++ tr2) = published tr1 ++ published tr2.
Proof. unfold published. apply omap_app. Qed.

Lemma host_failed_app (tr1 tr2 : list event) :
  host_failed (tr1 ++ tr2) = (host_failed tr1 || host_failed tr2)%bool.
Proof. unfold host_failed. apply existsb_app. Qed.

Lemma gathered_app (tr1 tr2 : list event) :
  gathered (tr1 ++ tr2) = gathered tr1 ++ gathered tr2.
Proof. unfold gathered. apply omap_app. Qed.

Lemma kinds_app (tr1 tr2 : list event) :
  kinds (tr1 ++ tr2) = kinds tr1 ++ kinds tr2.
Proof. unfold kinds. apply map_app. Qed.

Lemma count_app (k : kind) (tr1 tr2 : list event) :
  count k (tr1 ++ tr2) = (count k tr1 + count k tr2)%nat.
Proof. unfold count. rewrite kinds_app, filter_app, length_app. reflexivity. Qed.

Lemma batch_published (tr : list event) :
  Forall (fun k => batch_call k = true) (kinds tr) -> published tr = [].
Proof.
  induction tr as [| [R c r] tr IH]; simpl; intros H; [reflexivity |].
  inversion H as [| ? ? Hc Htr]; subst.
  rewrite publication_kind; [auto |].
  intros Heq. rewrite Heq in Hc. discriminate.
Qed.

Lemma batch_host_failed (tr : list event) :
  Forall (fun k => batch_call k = true) (kinds tr) -> host_failed tr = false.
Proof.
  induction tr as [| [R c r] tr IH]; simpl; intros H; [reflexivity |].
  inversion H as [| ? ? Hc Htr]; subst.
  rewrite host_failure_kind by exact Hc. simpl. auto.
Qed.

Lemma file_list_kind {R} (c : call R) (r : R) :
  kind_of c <> KGetFiles -> file_list c r = None.
Proof. induction c; simpl; intros Hk; try reflexivity; [congruence | auto]. Qed.

Lemma listed_app (tr1 tr2 : list event) :
  listed (tr1 ++ tr2) = listed tr1 ++ listed tr2.
Proof. unfold listed. apply omap_app. Qed.

Lemma batch_listed (tr : list event) :
  Forall (fun k => batch_call k = true) (kinds tr) -> listed tr = [].
Proof.
  induction tr as [| [R c r] tr IH]; simpl; intros H; [reflexivity |].
  inversion H as [| ? ? Hc Htr]; subst.
  rewrite file_list_kind; [auto |].
  intros Heq. rewrite Heq in Hc. discriminate.
Qed.

Lemma count_none (K : kind -> bool) (k : kind) (tr : list event) :
  Forall (fun k' => K k' = true) (kinds tr) -> K k = false -> count k tr = 0%nat.
Proof.
  unfold count. intros H Hk. induction H as [| k' ks Hk' H IH]; [reflexivity |].
  rewrite filter_cons. destruct (decide (k' = k)); [congruence | exact IH].
Qed.

Lemma tasks_gathered (tr : list event) :
  Forall (fun e => in_a_task e = true) tr -> gathered tr = [].
Proof.
  induction 1 as [| [R c r] tr Hc H IH]; [reflexivity |].
  simpl. destruct c; simpl in *; try discriminate. exact IH.
Qed.

(** ** A batch *)

Lemma not_exceptions_reviews (self : PRReviewer) (repo : Repository)
    (pr : PullRequest) (batch : list File) (results : list (result Review)) :
  length results = length batch ->
  (forall j file, batch !! j = Some file ->
     exists r, results !! j = Some r /\
       exists ans, feed (_analyze_file self repo pr file) ans = Some r) ->
  map r_filename (not_exceptions results) = map filename batch.
Proof.
  revert results. induction batch as [| file batch IH]; intros results Hlen Hj.
  - destruct results; [reflexivity | discriminate].
  - destruct results as [| r results]; [discriminate |].
    destruct (Hj 0%nat file eq_refl) as [r' [Hr' [ans Hfeed]]].
    injection Hr' as <-.
    destruct (analyze_file_feed Hfeed) as [review [-> [Hname _]]].
    unfold not_exceptions in *. simpl. f_equal; [exact Hname |].
    apply IH; [simpl in Hlen; lia |].
    intros j f Hf. apply (Hj (S j) f Hf).
Qed.

(** Whatever the answers and the schedule, a batch gives one review per
    file, in the order of the files. *)
Lemma batch_reviews_filenames {W} (h : handler W) (self : PRReviewer)
    (repo : Repository) (pr : PullRequest) (batch : list File) (w : W) :
  map r_filename
      (not_exceptions
         (value_of (run h (gather (map (_analyze_file self repo pr) batch)) w)))
    = map filename batch.
Proof.
  destruct (gather_local h (map (_analyze_file self repo pr) batch) w)
    as [Hlen Hloc].
  apply not_exceptions_reviews with (self := self) (repo := repo) (pr := pr).
  - rewrite Hlen, length_map. reflexivity.
  - intros j file Hj.
    destruct (Hloc j (_analyze_file self repo pr file)) as [a [Ha Hfeed]].
    { rewrite list_lookup_fmap, Hj. reflexivity. }
    exists a. split; [exact Ha |]. eexists. exact Hfeed.
Qed.

(** The loop: the names of the reviews are those of the files of the slices,
    slice after slice; the loop starts one [gather] per slice, and makes
    calls of the kinds of a batch only. *)
Lemma for_batches_spec {W} (h : handler W) (self : PRReviewer)
    (repo : Repository) (pr : PullRequest) (files : list File) :
  forall (idxs : list Z) (reviews : list Review) (w : W),
    let o := run h (for_batches self repo pr files idxs reviews) w in
    let batch_at i := slice files i (i + batch_size (config self)) in
    map r_filename (value_of o)
      = map r_filename reviews ++ map filename (concat (map batch_at idxs)) /\
    gathered (trace_of o) = map (fun i => length (batch_at i)) idxs /\
    Forall (fun k => batch_call k = true) (kinds (trace_of o)).
Proof.
  induction idxs as [| i idxs IH]; intros reviews w; cbn [for_batches].
  - unfold value_of, trace_of; simpl. rewrite app_nil_r.
    split; [reflexivity |]. split; [reflexivity | constructor].
  - cbv zeta. rewrite run_bind.
    set (batch := slice files i (i + batch_size (config self))).
    set (tasks := map (_analyze_file self repo pr) batch).
    pose proof (batch_reviews_filenames h self repo pr batch w) as Hnames.
    destruct (@gather_trace W _ file_call h tasks w) as [sched [tr [Htr [Htasks Hkinds]]]].
    { unfold tasks. apply Forall_map, Forall_forall. intros f _.
      apply analyze_file_only. }
    fold tasks in Hnames.
    destruct (run h (gather tasks) w) as [[results w1] tr1].
    unfold value_of, trace_of in Hnames, Htr; simpl in Hnames, Htr.
    specialize (IH (reviews ++ not_exceptions results) w1).
    destruct (run h (for_batches self repo pr files idxs
                       (reviews ++ not_exceptions results)) w1)
      as [[reviews' w2] tr2].
    unfold value_of, trace_of in *; simpl in *.
    destruct IH as [IH1 [IH2 IH3]]. split; [| split].
    + rewrite IH1, map_app, Hnames, map_app, <- app_assoc. reflexivity.
    + rewrite gathered_app, IH2, Htr. simpl.
      rewrite tasks_gathered by exact Htasks. simpl.
      unfold tasks. rewrite length_map. reflexivity.
    + rewrite kinds_app. apply Forall_app. split; [| exact IH3].
      rewrite Htr. simpl. constructor; [reflexivity |].
      eapply Forall_impl; [exact Hkinds |]. simpl. intros k Hk.
      unfold batch_call. destruct k; auto.
Qed.

(** ** Slices and ranges *)

Lemma slice_nat {A} (l : list A) (a b : nat) :
  slice l (Z.of_nat a) (Z.of_nat a + Z.of_nat b) = take b (drop a l).
Proof.
  unfold slice, slice_bound.
  destruct (Z.ltb_spec (Z.of_nat a) 0) as [? | _]; [lia |].
  destruct (Z.ltb_spec (Z.of_nat a + Z.of_nat b) 0) as [? | _]; [lia |].
  destruct (Nat.le_gt_cases (length l) a) as [Hge | Hlt].
  - rewrite (drop_ge l a) by exact Hge.
    replace (Z.to_nat (Z.min (Z.of_nat a) (Z.of_nat (length l))))
      with (length l) by lia.
    rewrite drop_all, !take_nil. reflexivity.
  - replace (Z.to_nat (Z.min (Z.of_nat a) (Z.of_nat (length l)))) with a by lia.
    destruct (Nat.le_gt_cases (a + b) (length l)) as [Hin | Hout].
    + f_equal. lia.
    + rewrite (take_ge (drop a l) b) by (rewrite length_drop; lia).
      apply take_ge. rewrite length_drop. lia.
Qed.

Lemma slice_to_take {A} (l : list A) (m : Z) :
  0 <= m -> slice_to l m = take (Z.to_nat m) l.
Proof.
  intros Hm. unfold slice_to.
  replace m with (Z.of_nat 0 + Z.of_nat (Z.to_nat m)) at 1 by lia.
  change 0 with (Z.of_nat 0) at 1. rewrite slice_nat. reflexivity.
Qed.

Lemma range_from_0 (n b : nat) :
  (0 < b)%nat ->
  range 0 (Z.of_nat n) (Z.of_nat b)
    = Ok (map (fun k : nat => Z.of_nat (k * b)) (seq 0 ((n + b - 1) / b))).
Proof.
  intros Hb. unfold range.
  destruct (Z.eqb_spec (Z.of_nat b) 0) as [? | _]; [lia |].
  destruct (Z.ltb_spec 0 (Z.of_nat b)) as [_ | ?]; [| lia].
  f_equal.
  replace (Z.to_nat (if 0 <? Z.of_nat n
                     then (Z.of_nat n - 0 - 1) / Z.of_nat b + 1 else 0))
    with ((n + b - 1) / b)%nat.
  - apply map_ext. intros k. lia.
  - destruct (Z.ltb_spec 0 (Z.of_nat n)) as [Hn | Hn].
    + replace (n + b - 1)%nat with ((n - 1) + 1 * b)%nat by lia.
      rewrite Nat.div_add by lia.
      replace (Z.of_nat n - 0 - 1) with (Z.of_nat (n - 1)) by lia.
      rewrite <- Nat2Z.inj_div. lia.
    + replace n with 0%nat by lia. simpl.
      rewrite Nat.div_small by lia. reflexivity.
Qed.

Lemma concat_chunks {A} (l : list A) (b : nat) :
  forall m : nat,
    concat (map (fun k : nat => take b (drop (k * b) l)) (seq 0 m))
      = take (m * b) l.
Proof.
  induction m as [| m IH]; [reflexivity |].
  rewrite seq_S, map_app, concat_app, IH. simpl. rewrite app_nil_r.
  rewrite take_take_drop. f_equal. lia.
Qed.

Lemma ceil_covers (n b : nat) :
  (0 < b)%nat -> (n <= (n + b - 1) / b * b)%nat.
Proof.
  intros Hb.
  pose proof (Nat.div_mod_eq (n + b - 1) b) as Hdm.
  pose proof (Nat.mod_upper_bound (n + b - 1) b) as Hlt.
  nia.
Qed.

(** For a batch size of at least one, the batches are the consecutive
    chunks of the list. *)
Lemma batches_of_chunks (files : list File) (b : nat) :
  (0 < b)%nat ->
  batches_of (Z.of_nat b) files
    = Ok (map (fun k : nat => take b (drop (k * b) files))
              (seq 0 ((length files + b - 1) / b))).
Proof.
  intros Hb. unfold batches_of. rewrite range_from_0 by exact Hb.
  f_equal. rewrite map_map. apply map_ext. intros k. apply slice_nat.
Qed.

Lemma concat_batches (files : list File) (b : nat) (batches : list (list File)) :
  (0 < b)%nat -> batches_of (Z.of_nat b) files = Ok batches ->
  concat batches = files.
Proof.
  intros Hb. rewrite batches_of_chunks by exact Hb. intros [= <-].
  rewrite concat_chunks. apply take_ge, ceil_covers, Hb.
Qed.

(** ** The runs of the methods, call by call *)

Lemma run_fetch_pr_details {W} (h : handler W) (self : PRReviewer)
    (name : string) (n : Z) (w : W) :
  run h (fetch_pr_details self name n) w =
    let '(r1, w1) := h _ (GetRepo name) w in
    match r1 with
    | Raise e => (Raise e, w1, [Event (GetRepo name) r1])
    | Ok repo =>
        let '(r2, w2) := h _ (GetPull repo n) w1 in
        match r2 with
        | Raise e =>
            (Raise e, w2, [Event (GetRepo name) r1; Event (GetPull repo n) r2])
        | Ok pr =>
            let '(r3, w3) := h _ (GetFiles pr) w2 in
            let tr := [Event (GetRepo name) r1; Event (GetPull repo n) r2;
                       Event (GetFiles pr) r3] in
            match r3 with
            | Raise e => (Raise e, w3, tr)
            | Ok fs =>
                (Ok {| d_title := title pr;
                       d_description := body pr;
                       d_files := map filename fs;
                       d_base_branch := base_ref pr;
                       d_head_branch := head_ref pr;
                       d_created_at := created_at pr;
                       d_updated_at := updated_at pr |}, w3, tr)
            end
        end
    end.
Proof.
  unfold fetch_pr_details, try_except, reraise, await. simpl.
  destruct (h _ (GetRepo name) w) as [[repo | e1] w1]; simpl; [| reflexivity].
  destruct (h _ (GetPull repo n) w1) as [[pr | e2] w2]; simpl; [| reflexivity].
  destruct (h _ (GetFiles pr) w2) as [[fs | e3] w3]; reflexivity.
Qed.

Lemma run_analyze_code_changes {W} (h : handler W) (self : PRReviewer)
    (name : string) (n : Z) (w : W) :
  run h (analyze_code_changes self name n) w =
    let '(r1, w1) := h _ (GetRepo name) w in
    match r1 with
    | Raise e => (Raise e, w1, [Event (GetRepo name) r1])
    | Ok repo =>
        let '(r2, w2) := h _ (GetPull repo n) w1 in
        match r2 with
        | Raise e =>
            (Raise e, w2, [Event (GetRepo name) r1; Event (GetPull repo n) r2])
        | Ok pr =>
            let '(r3, w3) := h _ (GetFiles pr) w2 in
            let tr := [Event (GetRepo name) r1; Event (GetPull repo n) r2;
                       Event (GetFiles pr) r3] in
            match r3 with
            | Raise e => (Raise e, w3, tr)
            | Ok fs =>
                let files := slice_to fs (max_files_to_review (config self)) in
                match range 0 (Z.of_nat (length files))
                        (batch_size (config self)) with
                | Raise e => (Raise e, w3, tr)
                | Ok idxs =>
                    let '(reviews, w4, tr') :=
                      run h (for_batches self repo pr files idxs []) w3 in
                    (Ok reviews, w4, tr ++ tr')
                end
            end
        end
    end.
Proof.
  unfold analyze_code_changes, try_except, reraise, await. simpl.
  destruct (h _ (GetRepo name) w) as [[repo | e1] w1]; simpl; [| reflexivity].
  destruct (h _ (GetPull repo n) w1) as [[pr | e2] w2]; simpl; [| reflexivity].
  destruct (h _ (GetFiles pr) w2) as [[fs | e3] w3]; simpl; [| reflexivity].
  destruct (range _ _ _) as [idxs | e4]; simpl; [| reflexivity].
  rewrite !run_bind.
  destruct (run h (for_batches _ _ _ _ _ _) w3) as [[reviews w4] tr'].
  simpl. rewrite !app_nil_r. reflexivity.
Qed.

Lemma run_post_review {W} (h : handler W) (self : PRReviewer)
    (name : string) (n : Z) (reviews : list Review) (w : W) :
  run h (post_review self name n reviews) w =
    let '(r1, w1) := h _ (GetRepo name) w in
    match r1 with
    | Raise e => (Raise e, w1, [Event (GetRepo name) r1])
    | Ok repo =>
        let '(r2, w2) := h _ (GetPull repo n) w1 in
        match r2 with
        | Raise e =>
            (Raise e, w2, [Event (GetRepo name) r1; Event (GetPull repo n) r2])
        | Ok pr =>
            let c := CreateReview pr (review_body_of reviews) "COMMENT" in
            let '(r3, w3) := h _ c w2 in
            (r3, w3, [Event (GetRepo name) r1; Event (GetPull repo n) r2;
                      Event c r3])
        end
    end.
Proof.
  unfold post_review, try_except, reraise, await. simpl.
  destruct (h _ (GetRepo name) w) as [[repo | e1] w1]; simpl; [| reflexivity].
  destruct (h _ (GetPull repo n) w1) as [[pr | e2] w2]; simpl; [| reflexivity].
  destruct (h _ (CreateReview _ _ _) w2) as [[[] | e3] w3]; reflexivity.
Qed.

Lemma run_review_pr {W} (h : handler W) (self : PRReviewer)
    (name : string) (n : Z) (w : W) :
  run h (review_pr self name n) w =
    let '(r1, w1, tr1) := run h (fetch_pr_details self name n) w in
    match r1 with
    | Raise e => (Raise e, w1, tr1)
    | Ok _ =>
        let '(r2, w2, tr2) := run h (analyze_code_changes self name n) w1 in
        match r2 with
        | Raise e => (Raise e, w2, tr1 ++ tr2)
        | Ok reviews =>
            let '(r3, w3, tr3) := run h (post_review self name n reviews) w2 in
            (r3, w3, tr1 ++ tr2 ++ tr3)
        end
    end.
Proof.
  unfold review_pr, try_except, reraise.
  rewrite !run_bind.
  destruct (run h (fetch_pr_details self name n) w) as [[[d | e1] w1] tr1];
    cbv beta iota zeta; [| cbn [run]; rewrite !app_nil_r; reflexivity].
  rewrite !run_bind.
  destruct (run h (analyze_code_changes self name n) w1) as [[[rs | e2] w2] tr2];
    cbv beta iota zeta; [| cbn [run]; rewrite !app_nil_r; reflexivity].
  rewrite !run_bind.
  destruct (run h (post_review self name n rs) w2) as [[[[] | e3] w3] tr3];
    cbv beta iota zeta; cbn [run]; rewrite !app_nil_r; reflexivity.
Qed.

(** ** The stages of a run *)

Lemma fetch_pr_details_spec {W} (h : handler W) (self : PRReviewer)
    (name : string) (n : Z) (w : W) :
  let o := run h (fetch_pr_details self name n) w in
  published (trace_of o) = [] /\
  count KCreateReview (trace_of o) = 0%nat /\
  match value_of o with
  | Ok _ =>
      count KGetRepo (trace_of o) = 1%nat /\
      count KGetPull (trace_of o) = 1%nat /\
      count KGetFiles (trace_of o) = 1%nat /\
      host_failed (trace_of o) = false
  | Raise _ => host_failed (trace_of o) = true
  end.
Proof.
  cbv zeta. rewrite run_fetch_pr_details.
  destruct (h _ (GetRepo name) w) as [[repo | e1] w1]; [| repeat split].
  destruct (h _ (GetPull repo n) w1) as [[pr | e2] w2]; [| repeat split].
  destruct (h _ (GetFiles pr) w2) as [[fs | e3] w3]; repeat split.
Qed.

Lemma analyze_code_changes_spec {W} (h : handler W) (self : PRReviewer)
    (name : string) (n : Z) (w : W) :
  let o := run h (analyze_code_changes self name n) w in
  published (trace_of o) = [] /\
  count KCreateReview (trace_of o) = 0%nat /\
  match value_of o with
  | Ok _ =>
      count KGetRepo (trace_of o) = 1%nat /\
      count KGetPull (trace_of o) = 1%nat /\
      count KGetFiles (trace_of o) = 1%nat /\
      host_failed (trace_of o) = false
  | Raise _ =>
      host_failed (trace_of o) = true \/ batch_size (config self) = 0
  end.
Proof.
  cbv zeta. rewrite run_analyze_code_changes.
  destruct (h _ (GetRepo name) w) as [[repo | e1] w1];
    [| repeat split; left; reflexivity].
  destruct (h _ (GetPull repo n) w1) as [[pr | e2] w2];
    [| repeat split; left; reflexivity].
  destruct (h _ (GetFiles pr) w2) as [[fs | e3] w3];
    [| repeat split; left; reflexivity].
  cbv zeta.
  destruct (range _ _ _) as [idxs | e4] eqn:Hrange.
  - pose proof (for_batches_spec h self repo pr
                  (slice_to fs (max_files_to_review (config self))) idxs [] w3)
      as [_ [_ Hkinds]].
    destruct (run h (for_batches _ _ _ _ _ _) w3) as [[reviews w4] tr'].
    unfold value_of, trace_of in *; cbn [fst snd] in Hkinds |- *.
    rewrite !published_app, !count_app, !host_failed_app.
    rewrite (batch_published Hkinds), (batch_host_failed Hkinds).
    rewrite !(count_none Hkinds) by reflexivity.
    repeat split.
  - repeat split. right. unfold range in Hrange.
    destruct (Z.eqb_spec (batch_size (config self)) 0); [assumption | discriminate].
Qed.

Lemma post_review_spec {W} (h : handler W) (self : PRReviewer)
    (name : string) (n : Z) (reviews : list Review) (w : W) :
  let o := run h (post_review self name n reviews) w in
  count KGetFiles (trace_of o) = 0%nat /\
  match value_of o with
  | Ok _ =>
      count KGetRepo (trace_of o) = 1%nat /\
      count KGetPull (trace_of o) = 1%nat /\
      count KCreateReview (trace_of o) = 1%nat /\
      host_failed (trace_of o) = false /\
      published (trace_of o) = [(review_body_of reviews, "COMMENT", true)]
  | Raise _ =>
      host_failed (trace_of o) = true /\
      (published (trace_of o) = [] \/
       published (trace_of o) = [(review_body_of reviews, "COMMENT", false)])
  end.
Proof.
  cbv zeta. rewrite run_post_review.
  destruct (h _ (GetRepo name) w) as [[repo | e1] w1];
    [| repeat split; left; reflexivity].
  destruct (h _ (GetPull repo n) w1) as [[pr | e2] w2];
    [| repeat split; left; reflexivity].
  cbv zeta.
  destruct (h _ (CreateReview _ _ _) w2) as [[[] | e3] w3]; repeat split.
  right. reflexivity.
Qed.

(** When the repository, the change request and the list of files are
    fetched, [analyze_code_changes] returns: one review per file of the
    truncated list, in the order of the list, from one [gather] per batch. *)
Lemma analyze_code_changes_ok {W} (h : handler W) (self : PRReviewer)
    (name : string) (n : Z) (w w1 w2 w3 : W) (repo : Repository)
    (pr : PullRequest) (fs : list File) :
  1 <= batch_size (config self) ->
  h _ (GetRepo name) w = (Ok repo, w1) ->
  h _ (GetPull repo n) w1 = (Ok pr, w2) ->
  h _ (GetFiles pr) w2 = (Ok fs, w3) ->
  let o := run h (analyze_code_changes self name n) w in
  let files := slice_to fs (max_files_to_review (config self)) in
  exists batches reviews,
    batches_of (batch_size (config self)) files = Ok batches /\
    value_of o = Ok reviews /\
    map r_filename reviews = map filename files /\
    gathered (trace_of o) = map length batches.
Proof.
  intros HB H1 H2 H3. cbv zeta.
  rewrite run_analyze_code_changes, H1. cbv beta iota.
  rewrite H2. cbv beta iota. rewrite H3. cbv beta iota zeta.
  set (files := slice_to fs (max_files_to_review (config self))).
  set (B := batch_size (config self)) in *.
  assert (HB' : B = Z.of_nat (Z.to_nat B)) by lia.
  destruct (range 0 (Z.of_nat (length files)) B) as [idxs | e] eqn:Hrange.
  2: { exfalso. rewrite HB' in Hrange.
       rewrite range_from_0 in Hrange by lia. discriminate. }
  assert (Hb : batches_of B files = Ok (map (fun i => slice files i (i + B)) idxs)).
  { unfold batches_of. rewrite Hrange. reflexivity. }
  pose proof (for_batches_spec h self repo pr files idxs [] w3) as Hspec.
  fold B in Hspec. cbv zeta in Hspec.
  destruct (run h (for_batches self repo pr files idxs []) w3)
    as [[reviews w4] tr'].
  unfold value_of, trace_of in *; cbn [fst snd] in *.
  destruct Hspec as [Hnames [Hgathered _]].
  exists (map (fun i => slice files i (i + B)) idxs), reviews.
  split; [exact Hb |]. split; [reflexivity |]. split.
  - rewrite Hnames. simpl. f_equal.
    apply concat_batches with (b := Z.to_nat B); [lia |].
    rewrite <- HB'. exact Hb.
  - rewrite gathered_app, Hgathered, map_map. reflexivity.
Qed.

Lemma sum_lengths {A} (ls : list (list A)) :
  sum_list (map length ls) = length (concat ls).
Proof.
  induction ls as [| l ls IH]; simpl; [reflexivity |].
  rewrite length_app, IH. reflexivity.
Qed.

(** ** The claims about the orchestrator *)

(** C1. In every run of [analyze_code_changes] in which the repository, the
    change request and a list of [L] changed files are fetched, whatever the
    answers to the content fetches and completion requests of the files (and
    whatever the schedule of the tasks), the list of findings returned has
    exactly [min L max_files_to_review] elements: one per file of the
    truncated list, in its order, none omitted; and as many per-file tasks
    are started.  The configuration obeys its invariant
    [max_files_to_review >= 0], [batch_size >= 1]. *)
Theorem findings_count {W} (h : handler W) (self : PRReviewer)
    (name : string) (n : Z) (w w1 w2 w3 : W) (repo : Repository)
    (pr : PullRequest) (fs : list File) :
  0 <= max_files_to_review (config self) ->
  1 <= batch_size (config self) ->
  h _ (GetRepo name) w = (Ok repo, w1) ->
  h _ (GetPull repo n) w1 = (Ok pr, w2) ->
  h _ (GetFiles pr) w2 = (Ok fs, w3) ->
  let o := run h (analyze_code_changes self name n) w in
  let expected :=
    Z.min (Z.of_nat (length fs)) (max_files_to_review (config self)) in
  exists reviews,
    value_of o = Ok reviews /\
    Z.of_nat (length reviews) = expected /\
    map r_filename reviews
      = map filename (take (Z.to_nat (max_files_to_review (config self))) fs) /\
    Z.of_nat (sum_list (gathered (trace_of o))) = expected.
Proof.
  intros Hmax HB H1 H2 H3 o expected.
  destruct (analyze_code_changes_ok HB H1 H2 H3)
    as [batches [reviews [Hb [Hv [Hnames Hg]]]]].
  fold o in Hv, Hg. rewrite slice_to_take in Hnames, Hb by exact Hmax.
  assert (Hlen : Z.of_nat (length (take (Z.to_nat (max_files_to_review (config self))) fs))
                 = expected).
  { rewrite length_take. unfold expected. lia. }
  exists reviews. split; [exact Hv |]. split; [| split; [exact Hnames |]].
  - rewrite <- Hlen, <- (length_map r_filename reviews), Hnames, length_map.
    reflexivity.
  - rewrite Hg, <- Hlen.
    replace (batch_size (config self))
      with (Z.of_nat (Z.to_nat (batch_size (config self)))) in Hb by lia.
    rewrite sum_lengths.
    rewrite (concat_batches (b := Z.to_nat (batch_size (config self)))
               ltac:(lia) Hb).
    reflexivity.
Qed.

Lemma findings_count_witness :
  let o := run (Script.scripted Script.two_failures)
               (analyze_code_changes (Script.reviewer 5 3) "org/repo" 42) 0%nat in
  exists reviews,
    value_of o = Ok reviews /\
    Z.of_nat (length reviews) = Z.min 7 5 /\
    map r_filename reviews
      = map filename (take 5 Script.seven_files) /\
    Z.of_nat (sum_list (gathered (trace_of o))) = Z.min 7 5.
Proof.
  apply (@findings_count nat (Script.scripted Script.two_failures)
           (Script.reviewer 5 3) "org/repo" 42 0%nat 1%nat 2%nat 3%nat
           Script.the_repo Script.the_pull Script.seven_files);
    first [reflexivity | simpl; lia].
Defined.

Lemma below_ceil (n b i : nat) :
  (0 < b)%nat -> (i < (n + b - 1) / b)%nat -> (i * b < n)%nat.
Proof.
  intros Hb Hi.
  pose proof (Nat.div_mod_eq (n + b - 1) b) as Hdm.
  pose proof (Nat.mod_upper_bound (n + b - 1) b) as Hlt.
  nia.
Qed.

Lemma chunk_spec (files : list File) (b : nat) (batches : list (list File)) :
  (0 < b)%nat -> batches_of (Z.of_nat b) files = Ok batches ->
  let B := Z.of_nat b in
  let N := Z.of_nat (length files) in
  Z.of_nat (length batches) = (N + B - 1) / B /\
  forall (i : nat) (batch : list File), batches !! i = Some batch ->
    Z.of_nat (length batch) = Z.min ((Z.of_nat i + 1) * B) N - Z.of_nat i * B /\
    forall k : nat, (k < length batch)%nat ->
      batch !! k = files !! (i * b + k)%nat.
Proof.
  intros Hb. rewrite batches_of_chunks by exact Hb. intros [= <-] B N.
  split.
  - rewrite length_map, length_seq, Nat2Z.inj_div. unfold B, N. f_equal. lia.
  - intros i batch Hi. rewrite list_lookup_fmap in Hi.
    destruct (seq 0 ((length files + b - 1) / b) !! i) as [k |] eqn:Hk;
      [| discriminate].
    apply lookup_seq in Hk as [-> Hlt]. simpl in Hi. injection Hi as <-.
    pose proof (below_ceil Hb Hlt) as Hin.
    split.
    + rewrite length_take, length_drop. unfold B, N. nia.
    + intros k Hk. rewrite length_take in Hk.
      rewrite lookup_take_lt by lia. apply lookup_drop.
Qed.

(** C3. For a batch size [B >= 1] and a truncated list of [N] files,
    [analyze_code_changes] cuts the list into [ceil(N/B)] (that is
    [(N + B - 1) / B]) batches; batch [i] has the files of the indices from
    [i * B] up to, not including, [min ((i + 1) * B) N], in the order of the
    host; it starts one [gather] per batch, over as many tasks as the batch
    has files; and the reviews it returns are those of the files of the
    truncated list, in the order of the list. *)
Theorem batches_partition {W} (h : handler W) (self : PRReviewer)
    (name : string) (n : Z) (w w1 w2 w3 : W) (repo : Repository)
    (pr : PullRequest) (fs : list File) :
  1 <= batch_size (config self) ->
  h _ (GetRepo name) w = (Ok repo, w1) ->
  h _ (GetPull repo n) w1 = (Ok pr, w2) ->
  h _ (GetFiles pr) w2 = (Ok fs, w3) ->
  let o := run h (analyze_code_changes self name n) w in
  let files := slice_to fs (max_files_to_review (config self)) in
  let B := batch_size (config self) in
  let N := Z.of_nat (length files) in
  exists batches reviews,
    batches_of B files = Ok batches /\
    Z.of_nat (length batches) = (N + B - 1) / B /\
    (forall (i : nat) (batch : list File), batches !! i = Some batch ->
       Z.of_nat (length batch)
         = Z.min ((Z.of_nat i + 1) * B) N - Z.of_nat i * B /\
       forall k : nat, (k < length batch)%nat ->
         batch !! k = files !! (i * Z.to_nat B + k)%nat) /\
    gathered (trace_of o) = map length batches /\
    value_of o = Ok reviews /\
    map r_filename reviews = map filename files.
Proof.
  intros HB H1 H2 H3 o files B N.
  destruct (analyze_code_changes_ok HB H1 H2 H3)
    as [batches [reviews [Hb [Hv [Hnames Hg]]]]].
  fold o in Hv, Hg. fold files B in Hb, Hnames.
  exists batches, reviews.
  assert (HB' : B = Z.of_nat (Z.to_nat B)) by (unfold B; lia).
  pose proof Hb as Hb'. rewrite HB' in Hb'.
  destruct (chunk_spec (b := Z.to_nat B) ltac:(unfold B; lia) Hb') as [Hlen Hat].
  rewrite <- HB' in Hlen, Hat.
  repeat split; try assumption; apply Hat; assumption.
Qed.

Lemma batches_partition_witness :
  let o := run (Script.scripted Script.two_failures)
               (analyze_code_changes (Script.reviewer 5 3) "org/repo" 42) 0%nat in
  let files := slice_to Script.seven_files 5 in
  exists batches reviews,
    batches_of 3 files = Ok batches /\
    Z.of_nat (length batches) = (Z.of_nat (length files) + 3 - 1) / 3 /\
    (forall (i : nat) (batch : list File), batches !! i = Some batch ->
       Z.of_nat (length batch)
         = Z.min ((Z.of_nat i + 1) * 3) (Z.of_nat (length files)) - Z.of_nat i * 3 /\
       forall k : nat, (k < length batch)%nat ->
         batch !! k = files !! (i * Z.to_nat 3 + k)%nat) /\
    gathered (trace_of o) = map length batches /\
    value_of o = Ok reviews /\
    map r_filename reviews = map filename files.
Proof.
  apply (@batches_partition nat (Script.scripted Script.two_failures)
           (Script.reviewer 5 3) "org/repo" 42 0%nat 1%nat 2%nat 3%nat
           Script.the_repo Script.the_pull Script.seven_files);
    first [reflexivity | simpl; lia].
Defined.

(** The scenario of the specification: seven files, at most five reviewed,
    batches of three. *)
Example seven_files_in_batches :
  let o := run (Script.scripted Script.two_failures)
               (review_pr (Script.reviewer 5 3) "org/repo" 42) 0%nat in
  batches_of 3 (slice_to Script.seven_files 5)
    = Ok [map Script.file ["a.py"; "b.js"; "README.md"];
          map Script.file ["Makefile"; "e.PY"]] /\
  gathered (trace_of o) = [3; 2]%nat /\
  value_of o = Ok tt.
Proof. vm_compute. repeat split. Qed.

(** A run of [review_pr], by its outcome. *)
Lemma review_pr_spec {W} (h : handler W) (self : PRReviewer)
    (name : string) (n : Z) (w : W) :
  let o := run h (review_pr self name n) w in
  match value_of o with
  | Ok _ =>
      host_failed (trace_of o) = false /\
      count KGetRepo (trace_of o) = 3%nat /\
      count KGetPull (trace_of o) = 3%nat /\
      count KGetFiles (trace_of o) = 2%nat /\
      count KCreateReview (trace_of o) = 1%nat /\
      exists reviews,
        published (trace_of o) = [(review_body_of reviews, "COMMENT", true)]
  | Raise _ =>
      (host_failed (trace_of o) = true \/ batch_size (config self) = 0) /\
      (published (trace_of o) = [] \/
       exists reviews,
         published (trace_of o) = [(review_body_of reviews, "COMMENT", false)])
  end.
Proof.
  cbv zeta. rewrite run_review_pr.
  pose proof (fetch_pr_details_spec h self name n w) as Hf. cbv zeta in Hf.
  destruct (run h (fetch_pr_details self name n) w) as [[[d | e1] w1] tr1];
    unfold value_of, trace_of in *; cbn [fst snd] in *.
  2: { destruct Hf as [Hp [_ Hh]]. split; [left; exact Hh | left; exact Hp]. }
  pose proof (analyze_code_changes_spec h self name n w1) as Ha. cbv zeta in Ha.
  destruct (run h (analyze_code_changes self name n) w1)
    as [[[reviews | e2] w2] tr2];
    unfold value_of, trace_of in *; cbn [fst snd] in *.
  2: { destruct Hf as [Hp1 [_ [_ [_ [_ Hh1]]]]]. destruct Ha as [Hp2 [_ Hh2]].
       rewrite host_failed_app, published_app, Hp1, Hp2, Hh1. simpl.
       split; [exact Hh2 | left; reflexivity]. }
  pose proof (post_review_spec h self name n reviews w2) as Hp. cbv zeta in Hp.
  destruct (run h (post_review self name n reviews) w2) as [[[[] | e3] w3] tr3];
    unfold value_of, trace_of in *; cbn [fst snd] in *;
    destruct Hf as [Hp1 [Hc1 [Hr1 [Hl1 [Hf1 Hh1]]]]];
    destruct Ha as [Hp2 [Hc2 [Hr2 [Hl2 [Hf2 Hh2]]]]];
    rewrite ?host_failed_app, ?published_app, ?count_app, Hp1, Hp2, Hh1, Hh2.
  - destruct Hp as [Hf3 [Hr3 [Hl3 [Hc3 [Hh3 Hp3]]]]].
    rewrite Hh3, Hp3, Hr1, Hr2, Hr3, Hl1, Hl2, Hl3, Hf1, Hf2, Hf3, Hc1, Hc2, Hc3.
    repeat split. exists reviews. reflexivity.
  - destruct Hp as [_ [Hh3 Hp3]]. rewrite Hh3. simpl. split; [left; reflexivity |].
    destruct Hp3 as [-> | ->]; [left; reflexivity | right].
    exists reviews. reflexivity.
Qed.




(** C5. In every run of [review_pr]: when [fetch_pr_details] raises [e], the
    run raises [e] and no call to [create_review] is made; and a run ends
    either normally, with exactly one review published and accepted, or with
    an exception and no review accepted by the host (no call to
    [create_review], or a single one that the host refused).  Never is more
    than one review, or a part of one, published. *)
Theorem no_publish_without_details {W} (h : handler W) (self : PRReviewer)
    (name : string) (n : Z) (w : W) :
  let o := run h (review_pr self name n) w in
  (forall e, value_of (run h (fetch_pr_details self name n) w) = Raise e ->
     value_of o = Raise e /\
     published (trace_of o) = [] /\
     count KCreateReview (trace_of o) = 0%nat) /\
  ((value_of o = Ok tt /\
    exists reviews,
      published (trace_of o) = [(review_body_of reviews, "COMMENT", true)]) \/
   (exists e, value_of o = Raise e /\
      (published (trace_of o) = [] \/
       exists reviews,
         published (trace_of o) = [(review_body_of reviews, "COMMENT", false)]))).
Proof.
  intros o. split.
  - intros e He. unfold o. rewrite run_review_pr.
    pose proof (fetch_pr_details_spec h self name n w) as Hf. cbv zeta in Hf.
    destruct (run h (fetch_pr_details self name n) w) as [[[d | e1] w1] tr1];
      unfold value_of, trace_of in *; cbn [fst snd] in *; [discriminate |].
    injection He as ->. destruct Hf as [Hp [Hc _]]. repeat split; assumption.
  - pose proof (review_pr_spec h self name n w) as Hspec. fold o in Hspec.
    cbv zeta in Hspec. destruct (value_of o) as [[] | e].
    + left. split; [reflexivity |]. apply Hspec.
    + right. exists e. split; [reflexivity |]. apply Hspec.
Qed.

Lemma no_publish_without_details_witness :
  let o := run (Script.scripted Script.no_file_list)
               (review_pr (Script.reviewer 5 3) "org/repo" 42) 0%nat in
  value_of o = Raise (Exception "GithubException" "502 Bad Gateway") /\
  published (trace_of o) = [] /\
  count KCreateReview (trace_of o) = 0%nat.
Proof.
  apply (proj1 (@no_publish_without_details nat
                  (Script.scripted Script.no_file_list)
                  (Script.reviewer 5 3) "org/repo" 42 0%nat)).
  reflexivity.
Defined.

(** C9, as the code has it.  The specification has the repository, the
    change request and the list of files fetched once per run; a run that
    publishes its review fetches the repository three times, the change
    request three times and the list of files twice: [fetch_pr_details],
    [analyze_code_changes] and [post_review] each fetch what they need
    again. *)
Theorem fetches_of_a_run {W} (h : handler W) (self : PRReviewer)
    (name : string) (n : Z) (w : W) :
  let o := run h (review_pr self name n) w in
  value_of o = Ok tt ->
  count KGetRepo (trace_of o) = 3%nat /\
  count KGetPull (trace_of o) = 3%nat /\
  count KGetFiles (trace_of o) = 2%nat.
Proof.
  intros o Hv.
  pose proof (review_pr_spec h self name n w) as Hspec. fold o in Hspec.
  cbv zeta in Hspec. rewrite Hv in Hspec.
  destruct Hspec as [_ [H1 [H2 [H3 _]]]]. auto.
Qed.

Lemma fetches_of_a_run_witness :
  let o := run (Script.scripted Script.two_failures)
               (review_pr (Script.reviewer 5 3) "org/repo" 42) 0%nat in
  count KGetRepo (trace_of o) = 3%nat /\
  count KGetPull (trace_of o) = 3%nat /\
  count KGetFiles (trace_of o) = 2%nat.
Proof.
  apply (@fetches_of_a_run nat (Script.scripted Script.two_failures)
           (Script.reviewer 5 3) "org/repo" 42 0%nat).
  reflexivity.
Defined.

(** C9 as stated fails: in this run, which publishes its review, the
    repository is fetched three times, not once. *)
Lemma fetched_more_than_once :
  let o := run (Script.scripted Script.two_failures)
               (review_pr (Script.reviewer 5 3) "org/repo" 42) 0%nat in
  value_of o = Ok tt /\ ~ fetched_once (trace_of o).
Proof.
  split; [reflexivity |]. intros [H _]. vm_compute in H. discriminate H.
Qed.

(** ** The review body *)

Lemma append_assoc (a b c : string) : (a +:+ b) +:+ c = a +:+ (b +:+ c).
Proof.
  induction a as [| x a IH]; [reflexivity |].
  change (String x ((a +:+ b) +:+ c) = String x (a +:+ (b +:+ c))).
  f_equal. exact IH.
Qed.

Lemma append_empty (a : string) : a +:+ "" = a.
Proof.
  induction a as [| x a IH]; [reflexivity |].
  change (String x (a +:+ "") = String x a). f_equal. exact IH.
Qed.

Lemma review_body_from (reviews : list Review) :
  forall start : string,
    fold_left (fun review_body review => review_body +:+ review_section review)
              reviews start
      = start +:+ spec_sections reviews.
Proof.
  induction reviews as [| r reviews IH]; intros start;
    cbn [fold_left spec_sections].
  - symmetry. apply append_empty.
  - rewrite IH. unfold review_section. rewrite !append_assoc. reflexivity.
Qed.

(** C4. For every list of findings, the empty one too, the body
    [post_review] builds is the header ["## AI Code Review Summary\n\n"]
    followed, for each finding in the order of the list, by
    ["### {filename}\n{analysis}\n\n"], and nothing else; it is the body of the
    one review [post_review] publishes, as a ["COMMENT"]. *)
Theorem review_body_format {W} (h : handler W) (self : PRReviewer)
    (name : string) (n : Z) (reviews : list Review) (w : W) :
  review_body_of reviews = spec_review_body reviews /\
  let o := run h (post_review self name n reviews) w in
  match value_of o with
  | Ok _ =>
      published (trace_of o) = [(spec_review_body reviews, "COMMENT", true)]
  | Raise _ =>
      published (trace_of o) = [] \/
      published (trace_of o) = [(spec_review_body reviews, "COMMENT", false)]
  end.
Proof.
  assert (Hbody : review_body_of reviews = spec_review_body reviews).
  { unfold review_body_of, spec_review_body, review_header.
    rewrite review_body_from, !append_assoc. reflexivity. }
  split; [exact Hbody |]. intros o.
  pose proof (post_review_spec h self name n reviews w) as Hspec.
  fold o in Hspec. cbv zeta in Hspec. rewrite Hbody in Hspec.
  destruct (value_of o); apply Hspec.
Qed.

Example review_body_empty :
  review_body_of [] = "## AI Code Review Summary" +:+ nl +:+ nl.
Proof. reflexivity. Qed.

Example review_body_two :
  review_body_of
    [ {| r_filename := "a.py"; r_analysis := Some "Fine."; r_timestamp := "t1" |};
      {| r_filename := "b.js"; r_analysis := None; r_timestamp := "t2" |} ]
  = "## AI Code Review Summary" +:+ nl +:+ nl +:+
    "### a.py" +:+ nl +:+ "Fine." +:+ nl +:+ nl +:+
    "### b.js" +:+ nl +:+ "None" +:+ nl +:+ nl.
Proof. reflexivity. Qed.

(** ** The release of the session *)

Lemma run_aexit {W} (h : handler W) (self : PRReviewer) (s : ClientSession)
    (c : AsyncOpenAI) (exc_val : option exn) (w : W) :
  session self = Some s -> openai_client self = Some c ->
  run h (__aexit__ self exc_val) w =
    let '(r1, w1) := h _ (CloseSession s) w in
    match r1 with
    | Raise e => (Raise e, w1, [Event (CloseSession s) r1])
    | Ok _ =>
        let '(r2, w2) := h _ (CloseClient c) w1 in
        (r2, w2, [Event (CloseSession s) r1; Event (CloseClient c) r2])
    end.
Proof.
  intros Hs Hc. unfold __aexit__, await. rewrite Hs, Hc. simpl.
  destruct (h _ (CloseSession s) w) as [[[] | e] w1]; simpl; [| reflexivity].
  destruct (h _ (CloseClient c) w1) as [r2 w2]. reflexivity.
Qed.

(** C7, as the code has it.  (1) [__aexit__], whatever the exception of the
    block, closes the HTTP session once; when that close returns, it closes
    the completion client once and ends as that close ends; when it raises,
    the exception leaves [__aexit__] and the completion client is not closed.
    Nothing is caught.
    (2) An [async with] block whose [__aenter__] succeeded is followed by
    [__aexit__] once, whether the block returned or raised; the outcome is
    that of the block when [__aexit__] returns, and the exception of
    [__aexit__] when it raises. *)
Theorem release_propagates_close_errors (self : PRReviewer) :
  (forall W (h : handler W) (s : ClientSession) (c : AsyncOpenAI)
          (exc_val : option exn) (w : W),
      session self = Some s -> openai_client self = Some c ->
      let o := run h (__aexit__ self exc_val) w in
      count KCloseSession (trace_of o) = 1%nat /\
      match (h _ (CloseSession s) w).1 with
      | Ok _ =>
          count KCloseClient (trace_of o) = 1%nat /\
          value_of o = (h _ (CloseClient c) (h _ (CloseSession s) w).2).1
      | Raise e =>
          count KCloseClient (trace_of o) = 0%nat /\ value_of o = Raise e
      end) /\
  (forall W (h : handler W) A (block : PRReviewer -> prog (result A))
          (s : ClientSession) (c : AsyncOpenAI) (w w1 w2 : W),
      h _ NewSession w = (Ok s, w1) ->
      h _ (NewClient (openai_api_key self)) w1 = (Ok c, w2) ->
      let reviewer := {| github_token := github_token self;
                         openai_api_key := openai_api_key self;
                         config := config self;
                         session := Some s;
                         openai_client := Some c |} in
      let ob := run h (block reviewer) w2 in
      let exc_val := match value_of ob with Ok _ => None | Raise e => Some e end in
      let ox := run h (__aexit__ reviewer exc_val) ob.1.2 in
      run h (async_with self block) w =
        (match value_of ox with Ok _ => value_of ob | Raise e => Raise e end,
         ox.1.2,
         [Event NewSession (Ok s);
          Event (NewClient (openai_api_key self)) (Ok c)]
         ++ trace_of ob ++ trace_of ox)).
Proof.
  split.
  - intros W h s c exc_val w Hs Hc o. unfold o.
    rewrite (run_aexit h exc_val w Hs Hc).
    destruct (h _ (CloseSession s) w) as [[[] | e] w1]; cbn [fst snd].
    + destruct (h _ (CloseClient c) w1) as [r2 w2]. repeat split.
    + repeat split.
  - intros W h A block s c w w1 w2 H1 H2 reviewer ob exc_val ox.
    assert (Henter : run h (__aenter__ self) w
                     = (Ok reviewer, w2,
                        [Event NewSession (Ok s);
                         Event (NewClient (openai_api_key self)) (Ok c)])).
    { unfold __aenter__, await. simpl. rewrite H1. simpl. rewrite H2.
      reflexivity. }
    unfold async_with. rewrite run_bind, Henter. cbv beta iota.
    rewrite run_bind. fold ob. subst exc_val ox.
    destruct ob as [[rb wb] trb]. unfold value_of, trace_of. cbn [fst snd].
    rewrite run_bind.
    destruct (run h (__aexit__ reviewer
                       match rb with Ok _ => None | Raise e => Some e end) wb)
      as [[[[] | e] wx] trx]; cbn [fst snd run]; rewrite app_nil_r; reflexivity.
Qed.

Lemma release_propagates_close_errors_witness :
  (let o := run (Script.scripted Script.close_fails)
                (__aexit__ (Script.reviewer 5 3) None) 0%nat in
   count KCloseSession (trace_of o) = 1%nat /\
   count KCloseClient (trace_of o) = 0%nat /\
   value_of o = Raise (Exception "ClientError" "session close failed")) /\
  (let h := Script.scripted Script.two_failures in
   let block := fun reviewer => review_pr reviewer "org/repo" 42 in
   let reviewer :=
     {| github_token := "xxx"; openai_api_key := "xxx";
        config := default_config;
        session := Some {| session_id := 0 |};
        openai_client := Some {| client_id := 1; api_key := "xxx" |} |} in
   let ob := run h (block reviewer) 2%nat in
   let ox := run h (__aexit__ reviewer None) ob.1.2 in
   run h (async_with Script.fresh_reviewer block) 0%nat =
     (Ok tt, ox.1.2,
      [Event NewSession (Ok {| session_id := 0 |});
       Event (NewClient "xxx") (Ok {| client_id := 1; api_key := "xxx" |})]
      ++ trace_of ob ++ trace_of ox)).
Proof.
  split.
  - exact (proj1 (release_propagates_close_errors (Script.reviewer 5 3))
             nat (Script.scripted Script.close_fails)
             {| session_id := 0 |} {| client_id := 1; api_key := "xxx" |}
             None 0%nat eq_refl eq_refl).
  - exact (proj2 (release_propagates_close_errors Script.fresh_reviewer)
             nat (Script.scripted Script.two_failures) unit
             (fun reviewer => review_pr reviewer "org/repo" 42)
             {| session_id := 0 |} {| client_id := 1; api_key := "xxx" |}
             0%nat 1%nat 2%nat eq_refl eq_refl).
Defined.

(** C7 as stated fails: the repository is not found, so the block raises;
    closing the HTTP session raises too; the run ends with the exception of
    the close, not with that of the block, and the completion client is
    never closed. *)
Lemma close_error_masks_failure :
  let o := run (Script.scripted Script.close_fails) (main "org/repo" 42) 0%nat in
  value_of o = Raise (Exception "ClientError" "session close failed") /\
  count KCloseSession (trace_of o) = 1%nat /\
  count KCloseClient (trace_of o) = 0%nat /\
  ~ released_quietly
      (Raise (Exception "UnknownObjectException" "404 Not Found")) o.
Proof.
  repeat split. intros [H _]. vm_compute in H. discriminate H.
Qed.

(** ** The prompt *)

Lemma split_nonempty (sep : ascii) (s : string) : split sep s <> [].
Proof.
  destruct s as [| c s]; simpl; [discriminate |].
  destruct (Ascii.eqb c sep); [discriminate |].
  destruct (split sep s); discriminate.
Qed.

Lemma split_app (sep : ascii) (pre rest : string) :
  split sep (pre +:+ String sep rest) = split sep pre ++ split sep rest.
Proof.
  induction pre as [| c pre IH].
  - change (split sep (String sep rest) = [EmptyString] ++ split sep rest).
    simpl. rewrite Ascii.eqb_refl. reflexivity.
  - change (split sep (String c (pre +:+ String sep rest))
            = split sep (String c pre) ++ split sep rest).
    simpl. rewrite IH. destruct (Ascii.eqb c sep); [reflexivity |].
    pose proof (@split_nonempty sep pre) as Hne.
    destruct (split sep pre) as [| p ps]; [congruence | reflexivity].
Qed.

Lemma split_without (sep : ascii) (s : string) :
  has_char sep s = false -> split sep s = [s].
Proof.
  induction s as [| c s IH]; simpl; [reflexivity |].
  destruct (Ascii.eqb c sep); simpl; [discriminate |].
  intros H. rewrite (IH H). reflexivity.
Qed.

Lemma file_ext_of_total (filename : string) :
  exists file_ext, file_ext_of filename = Ok file_ext.
Proof.
  unfold file_ext_of, index_last.
  pose proof (@split_nonempty "." filename) as Hne.
  destruct (last (split "." filename)) as [s |] eqn:Hl; [eauto |].
  apply last_None in Hl. congruence.
Qed.

Lemma review_messages_shape (cfg : PRReviewConfig)
    (content filename patch : string) :
  exists file_ext,
    file_ext_of filename = Ok file_ext /\
    review_messages cfg content filename patch
      = Ok [ {| role := "system"; content := system_prompt |};
             {| role := "user";
                content := prompt_of filename file_ext
                             (language_rules_of cfg file_ext) patch |} ].
Proof.
  destruct (file_ext_of_total filename) as [file_ext Hext].
  exists file_ext. split; [exact Hext |].
  unfold review_messages. rewrite Hext. reflexivity.
Qed.

(** C6, as the code has it.  The language key of a path is the lower-cased
    suffix after its last ['.']; for a path without ['.'] it is the whole
    path, lower-cased (the specification has the empty string there).  The
    rules are those the configuration has under that key, and the empty
    sequence when it has none; the prompt builder never raises. *)
Theorem language_key_of_path (cfg : PRReviewConfig) :
  (forall pre suffix : string,
      has_char "." suffix = false ->
      file_ext_of (pre +:+ "." +:+ suffix) = Ok (lower suffix)) /\
  (forall path : string,
      has_char "." path = false -> file_ext_of path = Ok (lower path)) /\
  (forall key : string,
      language_specific_rules cfg !! key = None ->
      language_rules_of cfg key = []) /\
  (forall (key : string) (rules : list string),
      language_specific_rules cfg !! key = Some rules ->
      language_rules_of cfg key = rules) /\
  (forall content filename patch : string,
      exists file_ext,
        file_ext_of filename = Ok file_ext /\
        review_messages cfg content filename patch
          = Ok [ {| role := "system"; content := system_prompt |};
                 {| role := "user";
                    content := prompt_of filename file_ext
                                 (language_rules_of cfg file_ext) patch |} ]).
Proof.
  repeat split.
  - intros pre suffix Hs. unfold file_ext_of, index_last.
    change (pre +:+ "." +:+ suffix) with (pre +:+ String "." suffix).
    rewrite split_app, (split_without Hs), last_snoc. reflexivity.
  - intros path Hp. unfold file_ext_of, index_last.
    rewrite (split_without Hp). reflexivity.
  - intros key Hk. unfold language_rules_of, dict_get. rewrite Hk. reflexivity.
  - intros key rules Hk. unfold language_rules_of, dict_get. rewrite Hk.
    reflexivity.
  - intros content filename patch. apply review_messages_shape.
Qed.

Lemma language_key_of_path_witness :
  file_ext_of ("src/Main" +:+ "." +:+ "PY") = Ok "py" /\
  file_ext_of "Makefile" = Ok "makefile" /\
  language_rules_of default_config "py" = [] /\
  language_rules_of default_config "javascript"
    = ["ESLint rules"; "Modern ES6+ features"; "Error handling";
       "Code organization"].
Proof.
  destruct (language_key_of_path default_config) as [H1 [H2 [H3 [H4 _]]]].
  split; [exact (H1 "src/Main" "PY" eq_refl) |].
  split; [exact (H2 "Makefile" eq_refl) |].
  split; [apply H3 | apply H4]; reflexivity.
Defined.

(** C6 as stated fails: for a path without ['.'] the key is not the empty
    string. *)
Lemma language_key_without_dot :
  file_ext_of "Makefile" = Ok "makefile" /\
  spec_language_key "Makefile" = "" /\
  file_ext_of "Makefile" <> Ok (spec_language_key "Makefile").
Proof. repeat split. discriminate. Qed.

Lemma submitted_app (tr1 tr2 : list event) :
  submitted (tr1 ++ tr2) = submitted tr1 ++ submitted tr2.
Proof. unfold submitted. apply omap_app. Qed.

(** The one request of [_analyze_file_content] carries the messages built
    from its arguments, whatever the outside answers. *)
Lemma analyze_file_content_submitted {W} (h : handler W) (self : PRReviewer)
    (content filename patch : string) (w : W) :
  submitted (trace_of (run h (_analyze_file_content self content filename patch) w))
    = match review_messages (config self) content filename patch,
            client_of self with
      | Ok messages, Ok _ => [messages]
      | _, _ => []
      end.
Proof.
  unfold _analyze_file_content, try_except, reraise, await.
  destruct (review_messages (config self) content filename patch)
    as [messages | e1]; [| reflexivity].
  destruct (client_of self) as [client | e2]; [| reflexivity].
  simpl. destruct (h _ (ChatCreate _ _ _ _) w) as [[response | e3] w1];
    [| reflexivity].
  simpl. destruct (index_first (choices response)) as [analysis | e4];
    [| reflexivity].
  simpl. destruct (h _ UtcNowIso w1) as [t w2]. reflexivity.
Qed.

(** The requests of [_analyze_file] when the content is fetched and
    decoded: those of [_analyze_file_content]. *)
Lemma analyze_file_submitted {W} (h : handler W) (self : PRReviewer)
    (repo : Repository) (pr : PullRequest) (file : File) (w : W)
    (c : Contents) (text : string) :
  (h _ (GetContents repo (filename file) (head_ref pr)) w).1 = Ok c ->
  file_content_of c = Ok text ->
  submitted (trace_of (run h (_analyze_file self repo pr file) w))
    = match review_messages (config self) text (filename file)
              (or_empty (patch file)),
            client_of self with
      | Ok messages, Ok _ => [messages]
      | _, _ => []
      end.
Proof.
  intros Hc Ht. unfold _analyze_file, try_except, await.
  cbn [bind run].
  destruct (h _ (GetContents repo (filename file) (head_ref pr)) w)
    as [r w1]. cbn [fst] in Hc. subst r. rewrite Ht. cbn [bind].
  rewrite run_bind.
  pose proof (analyze_file_content_submitted h self text (filename file)
                (or_empty (patch file)) w1) as Hsub.
  destruct (run h (_analyze_file_content self text (filename file)
                     (or_empty (patch file))) w1) as [[[review | e] w2] tr].
  - unfold trace_of in *; cbn [fst snd run] in *.
    change (submitted (tr ++ []) = match review_messages (config self) text
              (filename file) (or_empty (patch file)), client_of self with
            | Ok messages, Ok _ => [messages] | _, _ => [] end).
    rewrite app_nil_r. exact Hsub.
  - unfold trace_of in *; cbn [fst snd run] in *.
    destruct (h _ UtcNowIso w2) as [t w3]. cbn [fst snd run].
    change (submitted (tr ++ [Event UtcNowIso t]) = match review_messages
              (config self) text (filename file) (or_empty (patch file)),
              client_of self with
            | Ok messages, Ok _ => [messages] | _, _ => [] end).
    rewrite submitted_app, Hsub. apply app_nil_r.
Qed.

(** C8. The prompt builder [review_messages] is a function of its arguments
    (it makes no call to the outside).  Two invocations with the same path,
    the same patch and the same rule sets give the same system and user
    messages, whatever the file content and the rest of the configuration;
    and these messages are what [_analyze_file_content] submits, whatever the
    outside answers. *)
Theorem prompt_deterministic (self1 self2 : PRReviewer)
    (content1 content2 filename patch : string) :
  language_specific_rules (config self1) = language_specific_rules (config self2) ->
  review_messages (config self1) content1 filename patch
    = review_messages (config self2) content2 filename patch /\
  (exists file_ext,
      review_messages (config self1) content1 filename patch
        = Ok [ {| role := "system"; content := system_prompt |};
               {| role := "user";
                  content := prompt_of filename file_ext
                    (dict_get (language_specific_rules (config self1)) file_ext [])
                    patch |} ]) /\
  forall W1 (h1 : handler W1) (w1 : W1) W2 (h2 : handler W2) (w2 : W2),
    is_ok (client_of self1) = is_ok (client_of self2) ->
    submitted (trace_of (run h1 (_analyze_file_content self1 content1 filename patch) w1))
      = submitted (trace_of (run h2 (_analyze_file_content self2 content2 filename patch) w2)).
Proof.
  intros Hrules.
  assert (Heq : review_messages (config self1) content1 filename patch
                = review_messages (config self2) content2 filename patch).
  { unfold review_messages, language_rules_of. rewrite Hrules. reflexivity. }
  split; [exact Heq |]. split.
  - destruct (review_messages_shape (config self1) content1 filename patch)
      as [file_ext [_ Hm]].
    exists file_ext. exact Hm.
  - intros W1 h1 w1 W2 h2 w2 Hclient.
    rewrite !analyze_file_content_submitted, Heq.
    destruct (review_messages (config self2) content2 filename patch);
      [| reflexivity].
    destruct (client_of self1), (client_of self2); try reflexivity;
      discriminate.
Qed.

Lemma prompt_deterministic_witness :
  review_messages (config (Script.reviewer 5 3)) "x = 1" "a.py" "+ a.py"
    = review_messages default_config "" "a.py" "+ a.py" /\
  (exists file_ext,
      review_messages (config (Script.reviewer 5 3)) "x = 1" "a.py" "+ a.py"
        = Ok [ {| role := "system"; content := system_prompt |};
               {| role := "user";
                  content := prompt_of "a.py" file_ext
                    (dict_get (language_specific_rules
                                 (config (Script.reviewer 5 3))) file_ext [])
                    "+ a.py" |} ]) /\
  submitted (trace_of (run (Script.scripted Script.two_failures)
      (_analyze_file_content (Script.reviewer 5 3) "x = 1" "a.py" "+ a.py") 0%nat))
    = submitted (trace_of (run (Script.scripted Script.close_fails)
      (_analyze_file_content (Script.reviewer 50 5) "" "a.py" "+ a.py") 7%nat)).
Proof.
  destruct (@prompt_deterministic (Script.reviewer 5 3) (Script.reviewer 50 5)
              "x = 1" "" "a.py" "+ a.py" eq_refl) as [H1 [H2 H3]].
  split; [exact H1 |]. split; [exact H2 |].
  apply (H3 nat (Script.scripted Script.two_failures) 0%nat
            nat (Script.scripted Script.close_fails) 7%nat).
  reflexivity.
Defined.

(** C10, as the code has it.  The completion request of a file depends on
    the path, the patch and the configured rules, not on the text of the
    content fetched: for any two runs of [_analyze_file] on a file, in any
    two states of the outside, in both of which the content is fetched and
    decodes as UTF-8 (to any two texts, the empty one too), the messages
    submitted to the completion service are the same.  (The claim has no
    condition on the content; a content that does not decode stops the task
    before its request.) *)
Theorem prompt_ignores_content (self : PRReviewer) (repo : Repository)
    (pr : PullRequest) (file : File)
    {W1} (h1 : handler W1) (w1 : W1) {W2} (h2 : handler W2) (w2 : W2)
    (c1 c2 : Contents) (text1 text2 : string) :
  (h1 _ (GetContents repo (filename file) (head_ref pr)) w1).1 = Ok c1 ->
  file_content_of c1 = Ok text1 ->
  (h2 _ (GetContents repo (filename file) (head_ref pr)) w2).1 = Ok c2 ->
  file_content_of c2 = Ok text2 ->
  review_messages (config self) text1 (filename file) (or_empty (patch file))
    = review_messages (config self) text2 (filename file) (or_empty (patch file)) /\
  submitted (trace_of (run h1 (_analyze_file self repo pr file) w1))
    = submitted (trace_of (run h2 (_analyze_file self repo pr file) w2)).
Proof.
  intros Hc1 Ht1 Hc2 Ht2.
  assert (Heq : review_messages (config self) text1 (filename file)
                  (or_empty (patch file))
                = review_messages (config self) text2 (filename file)
                    (or_empty (patch file))) by reflexivity.
  split; [exact Heq |].
  rewrite (analyze_file_submitted self Hc1 Ht1).
  rewrite (analyze_file_submitted self Hc2 Ht2).
  rewrite Heq. reflexivity.
Qed.

Lemma prompt_ignores_content_witness :
  let self := Script.reviewer 5 3 in
  let file := Script.file "a.py" in
  review_messages (config self) "content of a.py" "a.py" "+ a.py"
    = review_messages (config self) "" "a.py" "+ a.py" /\
  submitted (trace_of (run (Script.scripted Script.two_failures)
      (_analyze_file self Script.the_repo Script.the_pull file) 0%nat))
    = submitted (trace_of (run (Script.scripted Script.close_fails)
      (_analyze_file self Script.the_repo Script.the_pull file) 0%nat)).
Proof.
  exact (@prompt_ignores_content (Script.reviewer 5 3) Script.the_repo
           Script.the_pull (Script.file "a.py")
           nat (Script.scripted Script.two_failures) 0%nat
           nat (Script.scripted Script.close_fails) 0%nat
           (ContentFile (Ok "content of a.py")) (ContentFile (Ok ""))
           "content of a.py" "" eq_refl eq_refl eq_refl eq_refl).
Defined.

(** C10 as stated fails: two runs of the analysis of one file that differ
    in the fetched content only, a text in the first and bytes that are not
    UTF-8 in the second; the first submits its prompt, the second submits
    nothing. *)
Lemma prompt_needs_decodable_content :
  let self := Script.reviewer 5 3 in
  let file := Script.file "logo.png" in
  let o1 := run (Script.scripted Script.two_failures)
                (_analyze_file self Script.the_repo Script.the_pull file) 0%nat in
  let o2 := run (Script.scripted (Script.undecodable Script.two_failures))
                (_analyze_file self Script.the_repo Script.the_pull file) 0%nat in
  length (submitted (trace_of o1)) = 1%nat /\
  submitted (trace_of o2) = [] /\
  submitted (trace_of o1) <> submitted (trace_of o2).
Proof.
  split; [reflexivity |]. split; [reflexivity |].
  intros H. apply (f_equal length) in H. vm_compute in H. discriminate H.
Qed.

(** The prompt of a Python file, under the default configuration: the rules
    are looked up under the extension ["py"], for which there are none. *)
Example prompt_of_a_python_file :
  review_messages default_config "" "src/App.PY" "+ x = 1"
  = Ok [ {| role := "system"; content := system_prompt |};
         {| role := "user";
            content :=
              nl +:+
              indent +:+ "Review the following code changes and provide feedback on:" +:+ nl +:+
              indent +:+ "1. Code quality and best practices" +:+ nl +:+
              indent +:+ "2. Potential security issues" +:+ nl +:+
              indent +:+ "3. Performance considerations" +:+ nl +:+
              indent +:+ "4. Maintainability" +:+ nl +:+
              indent +:+ "5. Testing coverage" +:+ nl +:+
              indent +:+ nl +:+
              indent +:+ "File: src/App.PY" +:+ nl +:+
              indent +:+ "Language: py" +:+ nl +:+
              indent +:+ "Specific rules to check: " +:+ nl +:+
              indent +:+ nl +:+
              indent +:+ "Code changes:" +:+ nl +:+
              indent +:+ "+ x = 1" +:+ nl +:+
              indent +:+ nl +:+
              indent +:+ "Please provide structured feedback with specific examples and suggestions for improvement." +:+ nl +:+
              indent |} ].
Proof. vm_compute. reflexivity. Qed.

(** * More of the code *)

(** ** Counting calls through [gather] *)

Lemma count_cons {R} (k : kind) (c : call R) (r : R) (tr : list event) :
  count k (Event c r :: tr)
    = ((if decide (kind_of c = k) then 1 else 0) + count k tr)%nat.
Proof.
  unfold count, kinds. simpl. rewrite filter_cons.
  destruct (decide (kind_of c = k)); reflexivity.
Qed.

Lemma sum_list_insert (ns : list nat) (j m : nat) :
  ns !! j = Some (S m) -> (sum_list (<[j := m]> ns) + 1 = sum_list ns)%nat.
Proof.
  revert j. induction ns as [| n ns IH]; intros [| j] Hj; simpl in *;
    try discriminate.
  - injection Hj as ->. lia.
  - specialize (IH j Hj). lia.
Qed.

Lemma spends_in_task {W A} (h : handler W) (k : kind) (exact : bool) (j : nat)
    (t : prog A) :
  forall (n : nat) (w : W),
    spends k exact n t ->
    fits exact n (count k (trace_of (run h (in_task j t) w))).
Proof.
  induction t as [a | R c kont IH]; intros n w Hs; simpl in *.
  - unfold fits, trace_of. simpl. destruct exact; [auto | unfold count; simpl; lia].
  - destruct (h R (InTask j c) w) as [r w1].
    destruct (run h (in_task j (kont r)) w1) as [[a w2] tr] eqn:Hrun.
    unfold trace_of; cbn [fst snd]. rewrite count_cons.
    change (kind_of (InTask j c)) with (kind_of c).
    destruct (decide (kind_of c = k)).
    + destruct n as [| m]; [contradiction |].
      specialize (IH r m w1 (Hs r)). rewrite Hrun in IH.
      unfold fits, trace_of in *; cbn [fst snd] in IH. destruct exact; lia.
    + specialize (IH r n w1 (Hs r)). rewrite Hrun in IH.
      unfold fits, trace_of in *; cbn [fst snd] in IH. destruct exact; lia.
Qed.

Lemma spends_interleave {W A} (h : handler W) (k : kind) (exact : bool)
    (sched : list nat) :
  forall (ns : list nat) (tasks : list (prog A)) (w : W),
    Forall2 (spends k exact) ns tasks ->
    exists ns',
      Forall2 (spends k exact) ns'
              (value_of (run h (interleave sched tasks) w)) /\
      (count k (trace_of (run h (interleave sched tasks) w)) + sum_list ns'
       = sum_list ns)%nat.
Proof.
  induction sched as [| j sched IH]; intros ns tasks w Hns; simpl.
  - exists ns. split; [exact Hns | reflexivity].
  - destruct (tasks !! j) as [[a | R c kont] |] eqn:Hj; try (apply IH; exact Hns).
    destruct (Forall2_lookup_r _ _ _ _ _ Hns Hj) as [n [Hn Hs]].
    simpl. destruct (h R (InTask j c) w) as [r w1]. simpl in Hs.
    destruct (decide (kind_of c = k)) as [Hk | Hk].
    + destruct n as [| m]; [contradiction |].
      destruct (IH (<[j := m]> ns) (<[j := kont r]> tasks) w1) as [ns' [H1 H2]].
      { apply Forall2_insert; [exact Hns | apply Hs]. }
      destruct (run h (interleave sched (<[j := kont r]> tasks)) w1)
        as [[tasks' w2] tr].
      unfold value_of, trace_of in *; cbn [fst snd] in *.
      exists ns'. split; [exact H1 |]. rewrite count_cons.
      change (kind_of (InTask j c)) with (kind_of c).
      destruct (decide (kind_of c = k)); [| contradiction].
      pose proof (sum_list_insert Hn). lia.
    + destruct (IH ns (<[j := kont r]> tasks) w1) as [ns' [H1 H2]].
      { rewrite <- (list_insert_id ns j n Hn).
        apply Forall2_insert; [exact Hns | apply Hs]. }
      destruct (run h (interleave sched (<[j := kont r]> tasks)) w1)
        as [[tasks' w2] tr].
      unfold value_of, trace_of in *; cbn [fst snd] in *.
      exists ns'. split; [exact H1 |]. rewrite count_cons.
      change (kind_of (InTask j c)) with (kind_of c).
      destruct (decide (kind_of c = k)); [contradiction | exact H2].
Qed.

Lemma spends_drain {W A} (h : handler W) (k : kind) (exact : bool)
    (tasks : list (prog A)) :
  forall (ns : list nat) (j : nat) (w : W),
    Forall2 (spends k exact) ns tasks ->
    fits exact (sum_list ns) (count k (trace_of (run h (drain j tasks) w))).
Proof.
  induction tasks as [| t ts IH]; intros ns j w Hns.
  - inversion Hns; subst. simpl. unfold fits, trace_of, count. simpl.
    destruct exact; [reflexivity | lia].
  - inversion Hns as [| n t' ns' ts' Ht Hts]; subst. simpl.
    rewrite run_bind.
    pose proof (spends_in_task h j w Ht) as H1.
    destruct (run h (in_task j t) w) as [[a w1] tr1].
    rewrite run_bind. specialize (IH ns' (S j) w1 Hts).
    destruct (run h (drain (S j) ts) w1) as [[rest w2] tr2].
    unfold fits, trace_of in *; cbn [fst snd run] in *.
    rewrite app_nil_r, count_app. destruct exact; lia.
Qed.

(** The calls of kind [k] of a [gather] are those of its tasks. *)
Lemma spends_gather {W A} (h : handler W) (k : kind) (exact : bool)
    (ns : list nat) (tasks : list (prog A)) (w : W) :
  k <> KSchedule ->
  Forall2 (spends k exact) ns tasks ->
  fits exact (sum_list ns) (count k (trace_of (run h (gather tasks) w))).
Proof.
  intros Hk Hns. unfold gather, await. simpl.
  destruct (h _ (Schedule (length tasks)) w) as [sched w1].
  rewrite run_bind.
  destruct (spends_interleave h sched w1 Hns) as [ns' [H1 H2]].
  destruct (run h (interleave sched tasks) w1) as [[tasks' w2] tr1].
  unfold value_of, trace_of in H1, H2; cbn [fst snd] in H1, H2.
  pose proof (spends_drain h 0 w2 H1) as H3.
  destruct (run h (drain 0 tasks') w2) as [[results w3] tr2].
  unfold fits, trace_of in *; cbn [fst snd] in *.
  rewrite count_cons, count_app. simpl.
  destruct (decide (KSchedule = k)); [congruence |].
  destruct exact; lia.
Qed.

Ltac spends_step :=
  simpl;
  match goal with
  | |- context [decide (?a = ?b)] =>
      destruct (decide (a = b)); [try discriminate | try congruence]
  | |- forall _, _ => intro
  | |- _ = _ => reflexivity
  | |- True => exact I
  end.

(** The task of one file fetches the content once, reads the clock once,
    and makes at most one completion request. *)
Lemma analyze_file_spends (self : PRReviewer) (repo : Repository)
    (pr : PullRequest) (file : File) :
  spends KGetContents true 1 (_analyze_file self repo pr file) /\
  spends KUtcNow true 1 (_analyze_file self repo pr file) /\
  spends KChatCreate false 1 (_analyze_file self repo pr file).
Proof.
  unfold _analyze_file, _analyze_file_content, try_except, reraise, await.
  repeat split; simpl.
  all: intros [content | e]; simpl; [| repeat spends_step].
  all: destruct (file_content_of content) as [text | e1]; simpl;
    [| repeat spends_step].
  all: destruct (review_messages _ _ _ _) as [msgs | e2]; simpl;
    [| repeat spends_step].
  all: destruct (client_of self) as [client | e3]; simpl;
    [| repeat spends_step].
  all: intros [response | e4]; simpl; [| repeat spends_step].
  all: destruct (index_first (choices response)) as [analysis | e5]; simpl;
    repeat spends_step.
Qed.

(** Without a completion client the task of a file makes no completion
    request. *)
Lemma analyze_file_spends_no_client (self : PRReviewer) (repo : Repository)
    (pr : PullRequest) (file : File) :
  openai_client self = None ->
  spends KChatCreate true 0 (_analyze_file self repo pr file).
Proof.
  intros Hc.
  unfold _analyze_file, _analyze_file_content, try_except, reraise, await,
    client_of.
  rewrite Hc. simpl.
  intros [content | e]; simpl; [| repeat spends_step].
  destruct (file_content_of content) as [text | e1]; simpl;
    [| repeat spends_step].
  destruct (review_messages _ _ _ _) as [msgs | e2]; simpl;
    repeat spends_step.
Qed.

(** The calls of kind [k] of the loop, when every task makes [n] of them. *)
Lemma for_batches_count {W} (h : handler W) (self : PRReviewer)
    (repo : Repository) (pr : PullRequest) (files : list File)
    (k : kind) (exact : bool) (n : nat) :
  k <> KSchedule ->
  (forall file, spends k exact n (_analyze_file self repo pr file)) ->
  forall (idxs : list Z) (reviews : list Review) (w : W),
    let batch_at i := slice files i (i + batch_size (config self)) in
    fits exact (length (concat (map batch_at idxs)) * n)
         (count k (trace_of (run h (for_batches self repo pr files idxs reviews) w))).
Proof.
  intros Hk Hn. induction idxs as [| i idxs IH]; intros reviews w;
    cbn [for_batches].
  - unfold fits, trace_of, count. simpl. destruct exact; [reflexivity | lia].
  - cbv zeta. rewrite run_bind.
    set (batch := slice files i (i + batch_size (config self))).
    pose proof (@spends_gather W _ h k exact (replicate (length batch) n)
                  (map (_analyze_file self repo pr) batch) w Hk) as Hg.
    destruct (run h (gather (map (_analyze_file self repo pr) batch)) w)
      as [[results w1] tr1].
    specialize (IH (reviews ++ not_exceptions results) w1). cbv zeta in IH.
    destruct (run h (for_batches self repo pr files idxs
                       (reviews ++ not_exceptions results)) w1)
      as [[reviews' w2] tr2].
    unfold trace_of in *; cbn [fst snd] in *.
    rewrite count_app. simpl. rewrite length_app.
    assert (Hg' : fits exact (length batch * n) (count k tr1)).
    { rewrite <- sum_list_replicate. apply Hg.
      apply Forall2_replicate_l.
      - apply length_map.
      - apply Forall_map, Forall_forall. intros f _. apply Hn. }
    fold batch. unfold fits in *. destruct exact; lia.
Qed.

(** ** The calls of a run of [analyze_code_changes] *)

Lemma analyze_code_changes_trace {W} (h : handler W) (self : PRReviewer)
    (name : string) (n : Z) (w w1 w2 w3 : W) (repo : Repository)
    (pr : PullRequest) (fs : list File) :
  1 <= batch_size (config self) ->
  h _ (GetRepo name) w = (Ok repo, w1) ->
  h _ (GetPull repo n) w1 = (Ok pr, w2) ->
  h _ (GetFiles pr) w2 = (Ok fs, w3) ->
  let files := slice_to fs (max_files_to_review (config self)) in
  exists idxs,
    concat (map (fun i => slice files i (i + batch_size (config self))) idxs)
      = files /\
    let ob := run h (for_batches self repo pr files idxs []) w3 in
    run h (analyze_code_changes self name n) w
      = (Ok (value_of ob), ob.1.2,
         [Event (GetRepo name) (Ok repo); Event (GetPull repo n) (Ok pr);
          Event (GetFiles pr) (Ok fs)] ++ trace_of ob).
Proof.
  intros HB H1 H2 H3 files.
  rewrite run_analyze_code_changes, H1. cbv beta iota.
  rewrite H2. cbv beta iota. rewrite H3. cbv beta iota zeta. fold files.
  set (B := batch_size (config self)) in *.
  assert (HB' : B = Z.of_nat (Z.to_nat B)) by lia.
  destruct (range 0 (Z.of_nat (length files)) B) as [idxs | e] eqn:Hrange.
  2: { exfalso. rewrite HB' in Hrange.
       rewrite range_from_0 in Hrange by lia. discriminate. }
  exists idxs. split.
  - apply concat_batches with (b := Z.to_nat B); [lia |].
    rewrite <- HB'. unfold batches_of. rewrite Hrange. reflexivity.
  - cbv zeta.
    destruct (run h (for_batches self repo pr files idxs []) w3)
      as [[reviews w4] tr']. reflexivity.
Qed.

(** X1. In a run of [analyze_code_changes] in which the repository, the
    change request and the list of files are fetched (batch size at least
    one), with [N] the length of the truncated list: the content of a file is
    fetched exactly [N] times, the clock is read exactly [N] times, at most
    [N] completion requests are made, and none at all by a reviewer that
    holds no completion client. *)
Theorem analysis_call_counts {W} (h : handler W) (self : PRReviewer)
    (name : string) (n : Z) (w w1 w2 w3 : W) (repo : Repository)
    (pr : PullRequest) (fs : list File) :
  1 <= batch_size (config self) ->
  h _ (GetRepo name) w = (Ok repo, w1) ->
  h _ (GetPull repo n) w1 = (Ok pr, w2) ->
  h _ (GetFiles pr) w2 = (Ok fs, w3) ->
  let tr := trace_of (run h (analyze_code_changes self name n) w) in
  let N := length (slice_to fs (max_files_to_review (config self))) in
  count KGetContents tr = N /\
  count KUtcNow tr = N /\
  (count KChatCreate tr <= N)%nat /\
  (openai_client self = None -> count KChatCreate tr = 0%nat).
Proof.
  intros HB H1 H2 H3 tr N.
  destruct (analyze_code_changes_trace HB H1 H2 H3) as [idxs [Hcat Hrun]].
  cbv zeta in Hrun. unfold tr. rewrite Hrun. unfold trace_of at 1 3 5 7.
  cbn [fst snd]. rewrite !count_app.
  assert (Hcount : forall k exact m, k <> KSchedule ->
            (forall f, spends k exact m (_analyze_file self repo pr f)) ->
            fits exact (N * m)
              (count k (trace_of (run h (for_batches self repo pr
                 (slice_to fs (max_files_to_review (config self))) idxs []) w3)))).
  { intros k exact m Hk Hs.
    pose proof (@for_batches_count W h self repo pr
                  (slice_to fs (max_files_to_review (config self)))
                  k exact m Hk Hs idxs [] w3) as Hc.
    cbv zeta in Hc. rewrite Hcat in Hc. exact Hc. }
  pose proof (Hcount KGetContents true 1%nat ltac:(discriminate)
                (fun f => proj1 (analyze_file_spends self repo pr f))) as Hg.
  pose proof (Hcount KUtcNow true 1%nat ltac:(discriminate)
                (fun f => proj1 (proj2 (analyze_file_spends self repo pr f)))) as Hu.
  pose proof (Hcount KChatCreate false 1%nat ltac:(discriminate)
                (fun f => proj2 (proj2 (analyze_file_spends self repo pr f)))) as Hc.
  unfold fits in Hg, Hu, Hc.
  change (count KGetContents [Event (GetRepo name) (Ok repo);
            Event (GetPull repo n) (Ok pr); Event (GetFiles pr) (Ok fs)])
    with 0%nat.
  change (count KUtcNow [Event (GetRepo name) (Ok repo);
            Event (GetPull repo n) (Ok pr); Event (GetFiles pr) (Ok fs)])
    with 0%nat.
  change (count KChatCreate [Event (GetRepo name) (Ok repo);
            Event (GetPull repo n) (Ok pr); Event (GetFiles pr) (Ok fs)])
    with 0%nat.
  repeat split; try lia.
  intros Hnone.
  pose proof (Hcount KChatCreate true 0%nat ltac:(discriminate)
                (fun f => @analyze_file_spends_no_client self repo pr f Hnone))
    as H0.
  unfold fits in H0. lia.
Qed.

Lemma analysis_call_counts_witness :
  (let tr := trace_of (run (Script.scripted Script.two_failures)
                 (analyze_code_changes (Script.reviewer 5 3) "org/repo" 42) 0%nat) in
   count KGetContents tr = 5%nat /\ count KUtcNow tr = 5%nat /\
   (count KChatCreate tr <= 5)%nat) /\
  count KChatCreate
    (trace_of (run (Script.scripted Script.two_failures)
       (analyze_code_changes Script.fresh_reviewer "org/repo" 42) 0%nat)) = 0%nat.
Proof.
  split.
  - destruct (@analysis_call_counts nat (Script.scripted Script.two_failures)
                (Script.reviewer 5 3) "org/repo" 42 0%nat 1%nat 2%nat 3%nat
                Script.the_repo Script.the_pull Script.seven_files
                ltac:(simpl; lia) eq_refl eq_refl eq_refl) as [H1 [H2 [H3 _]]].
    split; [exact H1 |]. split; [exact H2 | exact H3].
  - apply (@analysis_call_counts nat (Script.scripted Script.two_failures)
             Script.fresh_reviewer "org/repo" 42 0%nat 1%nat 2%nat 3%nat
             Script.the_repo Script.the_pull Script.seven_files
             ltac:(simpl; lia) eq_refl eq_refl eq_refl).
    reflexivity.
Defined.

(** ** The shape of a run of [review_pr] that returns *)

Lemma review_pr_ok_shape {W} (h : handler W) (self : PRReviewer)
    (name : string) (n : Z) (w : W) :
  let o := run h (review_pr self name n) w in
  value_of o = Ok tt ->
  exists (fs0 fs : list File) (repo : Repository) (pr : PullRequest)
         (idxs : list Z) (w' : W) (pre post : list event),
    let files := slice_to fs (max_files_to_review (config self)) in
    let ob := run h (for_batches self repo pr files idxs []) w' in
    range 0 (Z.of_nat (length files)) (batch_size (config self)) = Ok idxs /\
    trace_of o = pre ++ trace_of ob ++ post /\
    kinds pre = [KGetRepo; KGetPull; KGetFiles; KGetRepo; KGetPull; KGetFiles] /\
    listed pre = [fs0; fs] /\
    published pre = [] /\
    kinds post = [KGetRepo; KGetPull; KCreateReview] /\
    listed post = [] /\
    published post = [(review_body_of (value_of ob), "COMMENT", true)].
Proof.
  intros o. unfold o. rewrite run_review_pr, run_fetch_pr_details.
  destruct (h _ (GetRepo name) w) as [[repo0 | e] w1];
    [| intros Hv; discriminate Hv].
  destruct (h _ (GetPull repo0 n) w1) as [[pr0 | e] w2];
    [| intros Hv; discriminate Hv].
  destruct (h _ (GetFiles pr0) w2) as [[fs0 | e] w3];
    [| intros Hv; discriminate Hv].
  cbv beta iota zeta. rewrite run_analyze_code_changes.
  destruct (h _ (GetRepo name) w3) as [[repo | e] w4];
    [| intros Hv; discriminate Hv].
  destruct (h _ (GetPull repo n) w4) as [[pr | e] w5];
    [| intros Hv; discriminate Hv].
  destruct (h _ (GetFiles pr) w5) as [[fs | e] w6];
    [| intros Hv; discriminate Hv].
  cbv beta iota zeta.
  destruct (range 0 _ (batch_size (config self))) as [idxs | e] eqn:Hrange;
    [| intros Hv; discriminate Hv].
  destruct (run h (for_batches self repo pr
                     (slice_to fs (max_files_to_review (config self))) idxs [])
                w6) as [[reviews w7] tr'] eqn:Hob.
  rewrite run_post_review.
  destruct (h _ (GetRepo name) w7) as [[repo1 | e] w8];
    [| intros Hv; discriminate Hv].
  destruct (h _ (GetPull repo1 n) w8) as [[pr1 | e] w9];
    [| intros Hv; discriminate Hv].
  cbv beta iota zeta.
  destruct (h _ (CreateReview pr1 (review_body_of reviews) "COMMENT") w9)
    as [[[] | e] w10]; [| intros Hv; discriminate Hv].
  intros _.
  exists fs0, fs, repo, pr, idxs, w6,
    [Event (GetRepo name) (Ok repo0); Event (GetPull repo0 n) (Ok pr0);
     Event (GetFiles pr0) (Ok fs0);
     Event (GetRepo name) (Ok repo); Event (GetPull repo n) (Ok pr);
     Event (GetFiles pr) (Ok fs)],
    [Event (GetRepo name) (Ok repo1); Event (GetPull repo1 n) (Ok pr1);
     Event (CreateReview pr1 (review_body_of reviews) "COMMENT") (Ok tt)].
  cbv zeta. rewrite Hob. unfold value_of, trace_of. cbn [fst snd].
  split; [exact Hrange |]. split.
  - rewrite <- !app_assoc. reflexivity.
  - repeat split.
Qed.

Lemma range_negative_step (n : nat) (b : Z) :
  b < 0 -> range 0 (Z.of_nat n) b = Ok [].
Proof.
  intros Hb. unfold range.
  destruct (Z.eqb_spec b 0) as [? | _]; [lia |].
  destruct (Z.ltb_spec 0 b) as [? | _]; [lia |].
  destruct (Z.ltb_spec (Z.of_nat n) 0) as [? | _]; [lia |]. reflexivity.
Qed.

Lemma range_of_nothing (b : Z) : b <> 0 -> range 0 (Z.of_nat 0) b = Ok [].
Proof.
  intros Hb. unfold range.
  destruct (Z.eqb_spec b 0) as [? | _]; [contradiction |].
  destruct (0 <? b); reflexivity.
Qed.

Lemma count_of_kinds (k : kind) (tr : list event) (ks : list kind) :
  kinds tr = ks -> count k tr = length (filter (fun k' => k' = k) ks).
Proof. intros <-. reflexivity. Qed.

Lemma gathered_of_kinds (tr : list event) :
  ~ In KSchedule (kinds tr) -> gathered tr = [].
Proof.
  induction tr as [| [R c r] tr IH]; intros Hin; [reflexivity |].
  unfold gathered in *. simpl in *.
  destruct c; simpl in *; try (apply IH; tauto). tauto.
Qed.

(** X2. A negative batch size is not refused: the loop of
    [analyze_code_changes] has no iteration, so a run of [review_pr] that
    returns has analysed no file (no content fetch, no completion request,
    no [gather]) and has published a review that is the header alone. *)
Theorem negative_batch_size_reviews_nothing {W} (h : handler W)
    (self : PRReviewer) (name : string) (n : Z) (w : W) :
  batch_size (config self) < 0 ->
  let o := run h (review_pr self name n) w in
  value_of o = Ok tt ->
  published (trace_of o)
    = [("## AI Code Review Summary" +:+ nl +:+ nl, "COMMENT", true)] /\
  gathered (trace_of o) = [] /\
  count KGetContents (trace_of o) = 0%nat /\
  count KChatCreate (trace_of o) = 0%nat.
Proof.
  intros HB o Hv.
  destruct (review_pr_ok_shape Hv)
    as (fs0 & fs & repo & pr & idxs & w' & pre & post & Hshape).
  cbv zeta in Hshape.
  destruct Hshape as (Hrange & Htr & Hkpre & _ & Hppre & Hkpost & _ & Hppost).
  rewrite range_negative_step in Hrange by exact HB. injection Hrange as <-.
  fold o in Htr. rewrite Htr. cbn [for_batches run] in *.
  unfold value_of, trace_of in *. cbn [fst snd] in *.
  rewrite !published_app, !gathered_app, !count_app, Hppre, Hppost.
  rewrite !(count_of_kinds _ Hkpre), !(count_of_kinds _ Hkpost).
  rewrite (@gathered_of_kinds pre), (@gathered_of_kinds post)
    by (rewrite ?Hkpre, ?Hkpost; simpl; intuition discriminate).
  repeat split.
Qed.

Lemma negative_batch_size_reviews_nothing_witness :
  let o := run (Script.scripted Script.two_failures)
               (review_pr (Script.reviewer 5 (-1)) "org/repo" 42) 0%nat in
  published (trace_of o)
    = [("## AI Code Review Summary" +:+ nl +:+ nl, "COMMENT", true)] /\
  gathered (trace_of o) = [] /\
  count KGetContents (trace_of o) = 0%nat /\
  count KChatCreate (trace_of o) = 0%nat.
Proof.
  apply (@negative_batch_size_reviews_nothing nat
           (Script.scripted Script.two_failures) (Script.reviewer 5 (-1))
           "org/repo" 42 0%nat); [simpl; lia | reflexivity].
Defined.

Lemma analyze_zero_batch_size {W} (h : handler W) (self : PRReviewer)
    (name : string) (n : Z) (w : W) :
  batch_size (config self) = 0 ->
  exists e, value_of (run h (analyze_code_changes self name n) w) = Raise e.
Proof.
  intros HB. rewrite run_analyze_code_changes.
  destruct (h _ (GetRepo name) w) as [[repo | e] w1]; [| eauto].
  destruct (h _ (GetPull repo n) w1) as [[pr | e] w2]; [| eauto].
  destruct (h _ (GetFiles pr) w2) as [[fs | e] w3]; [| eauto].
  cbv zeta. rewrite HB. unfold range. simpl. eauto.
Qed.

(** X3. A batch size of zero makes every run of [review_pr] fail: it ends
    with an exception and publishes nothing; once the repository, the change
    request and the list of files are fetched, [analyze_code_changes] raises
    the [ValueError] of [range], whatever the list, before any file is
    analysed. *)
Theorem zero_batch_size_raises (self : PRReviewer) :
  batch_size (config self) = 0 ->
  (forall W (h : handler W) (name : string) (n : Z) (w : W),
      let o := run h (review_pr self name n) w in
      (exists e, value_of o = Raise e) /\ published (trace_of o) = []) /\
  (forall W (h : handler W) (name : string) (n : Z) (w w1 w2 w3 : W)
          (repo : Repository) (pr : PullRequest) (fs : list File),
      h _ (GetRepo name) w = (Ok repo, w1) ->
      h _ (GetPull repo n) w1 = (Ok pr, w2) ->
      h _ (GetFiles pr) w2 = (Ok fs, w3) ->
      run h (analyze_code_changes self name n) w
        = (Raise (Exception "ValueError" "range() arg 3 must not be zero"), w3,
           [Event (GetRepo name) (Ok repo); Event (GetPull repo n) (Ok pr);
            Event (GetFiles pr) (Ok fs)])).
Proof.
  intros HB. split.
  - intros W h name n w o. unfold o. rewrite run_review_pr.
    pose proof (fetch_pr_details_spec h self name n w) as Hf. cbv zeta in Hf.
    destruct (run h (fetch_pr_details self name n) w) as [[[d | e1] w1] tr1];
      unfold value_of, trace_of in *; cbn [fst snd] in *.
    2: { split; [eauto | apply Hf]. }
    destruct (analyze_zero_batch_size h name n w1 HB) as [e He].
    pose proof (analyze_code_changes_spec h self name n w1) as Ha.
    cbv zeta in Ha.
    destruct (run h (analyze_code_changes self name n) w1)
      as [[[rs | e2] w2] tr2];
      unfold value_of, trace_of in *; cbn [fst snd] in *; [discriminate He |].
    split; [eauto |]. rewrite published_app.
    destruct Hf as [-> _]. destruct Ha as [-> _]. reflexivity.
  - intros W h name n w w1 w2 w3 repo pr fs H1 H2 H3.
    rewrite run_analyze_code_changes, H1. cbv beta iota.
    rewrite H2. cbv beta iota. rewrite H3. cbv beta iota zeta.
    rewrite HB. reflexivity.
Qed.

Lemma zero_batch_size_raises_witness :
  (let o := run (Script.scripted Script.two_failures)
                (review_pr (Script.reviewer 5 0) "org/repo" 42) 0%nat in
   (exists e, value_of o = Raise e) /\ published (trace_of o) = []) /\
  run (Script.scripted Script.two_failures)
      (analyze_code_changes (Script.reviewer 5 0) "org/repo" 42) 0%nat
    = (Raise (Exception "ValueError" "range() arg 3 must not be zero"), 3%nat,
       [Event (GetRepo "org/repo") (Ok Script.the_repo);
        Event (GetPull Script.the_repo 42) (Ok Script.the_pull);
        Event (GetFiles Script.the_pull) (Ok Script.seven_files)]).
Proof.
  destruct (@zero_batch_size_raises (Script.reviewer 5 0) eq_refl) as [H1 H2].
  split.
  - apply (H1 nat (Script.scripted Script.two_failures) "org/repo" 42 0%nat).
  - apply (H2 nat (Script.scripted Script.two_failures) "org/repo" 42
              0%nat 1%nat 2%nat 3%nat); reflexivity.
Defined.

Lemma slice_to_negative {A} (l : list A) (m : Z) :
  m < 0 -> slice_to l m = take (length l - Z.to_nat (- m)) l.
Proof.
  intros Hm. unfold slice_to, slice, slice_bound.
  destruct (Z.ltb_spec 0 0) as [? | _]; [lia |].
  destruct (Z.ltb_spec m 0) as [_ | ?]; [| lia].
  replace (Z.to_nat (Z.min 0 (Z.of_nat (length l)))) with 0%nat by lia.
  simpl. f_equal. lia.
Qed.

(** X4. A negative [max_files_to_review] is not refused either: the slice
    [files[:max]] then drops the last [-max] files, so the run reviews all
    but the last [-max] files of the list, in order (batch size at least
    one). *)
Theorem negative_maximum_drops_last_files {W} (h : handler W)
    (self : PRReviewer) (name : string) (n : Z) (w w1 w2 w3 : W)
    (repo : Repository) (pr : PullRequest) (fs : list File) :
  max_files_to_review (config self) < 0 ->
  1 <= batch_size (config self) ->
  h _ (GetRepo name) w = (Ok repo, w1) ->
  h _ (GetPull repo n) w1 = (Ok pr, w2) ->
  h _ (GetFiles pr) w2 = (Ok fs, w3) ->
  exists reviews,
    value_of (run h (analyze_code_changes self name n) w) = Ok reviews /\
    map r_filename reviews
      = map filename
          (take (length fs - Z.to_nat (- max_files_to_review (config self))) fs).
Proof.
  intros Hmax HB H1 H2 H3.
  destruct (analyze_code_changes_ok HB H1 H2 H3)
    as [batches [reviews [_ [Hv [Hnames _]]]]].
  exists reviews. split; [exact Hv |].
  rewrite Hnames, slice_to_negative by exact Hmax. reflexivity.
Qed.

Lemma negative_maximum_drops_last_files_witness :
  exists reviews,
    value_of (run (Script.scripted Script.two_failures)
                (analyze_code_changes (Script.reviewer (-2) 3) "org/repo" 42)
                0%nat) = Ok reviews /\
    map r_filename reviews = ["a.py"; "b.js"; "README.md"; "Makefile"; "e.PY"].
Proof.
  apply (@negative_maximum_drops_last_files nat
           (Script.scripted Script.two_failures) (Script.reviewer (-2) 3)
           "org/repo" 42 0%nat 1%nat 2%nat 3%nat
           Script.the_repo Script.the_pull Script.seven_files);
    first [reflexivity | simpl; lia].
Defined.

(** X5. A change request without files to analyse (an empty list of files,
    or a maximum of zero) still gets a review: a run of [review_pr] that
    returns, whose second listing truncates to the empty list, starts no
    [gather] and publishes the header alone. *)
Theorem no_files_header_only {W} (h : handler W) (self : PRReviewer)
    (name : string) (n : Z) (w : W) (fs0 fs : list File) :
  let o := run h (review_pr self name n) w in
  value_of o = Ok tt ->
  listed (trace_of o) = [fs0; fs] ->
  slice_to fs (max_files_to_review (config self)) = [] ->
  published (trace_of o)
    = [("## AI Code Review Summary" +:+ nl +:+ nl, "COMMENT", true)] /\
  gathered (trace_of o) = [].
Proof.
  intros o Hv Hl Hempty.
  destruct (review_pr_ok_shape Hv)
    as (fs0' & fs' & repo & pr & idxs & w' & pre & post & Hshape).
  cbv zeta in Hshape.
  destruct Hshape as (Hrange & Htr & Hkpre & Hlpre & Hppre & Hkpost & Hlpost & Hppost).
  fold o in Htr.
  assert (Hloop : listed (trace_of (run h (for_batches self repo pr
             (slice_to fs' (max_files_to_review (config self))) idxs []) w')) = []).
  { apply batch_listed. apply for_batches_spec. }
  rewrite Htr, !listed_app, Hlpre, Hlpost, Hloop in Hl. simpl in Hl.
  injection Hl as _ ->. rewrite Hempty in *.
  assert (HB : batch_size (config self) <> 0).
  { intros HB. rewrite HB in Hrange. discriminate Hrange. }
  change (length (@nil File)) with 0%nat in Hrange.
  rewrite range_of_nothing in Hrange by exact HB. injection Hrange as <-.
  rewrite Htr. cbn [for_batches run] in *.
  unfold value_of, trace_of in *. cbn [fst snd] in *.
  rewrite !published_app, !gathered_app, Hppre, Hppost.
  rewrite (@gathered_of_kinds pre), (@gathered_of_kinds post)
    by (rewrite ?Hkpre, ?Hkpost; simpl; intuition discriminate).
  split; reflexivity.
Qed.

Lemma no_files_header_only_witness :
  let o := run (Script.scripted Script.no_changes)
               (review_pr (Script.reviewer 5 3) "org/repo" 42) 0%nat in
  published (trace_of o)
    = [("## AI Code Review Summary" +:+ nl +:+ nl, "COMMENT", true)] /\
  gathered (trace_of o) = [].
Proof.
  apply (@no_files_header_only nat (Script.scripted Script.no_changes)
           (Script.reviewer 5 3) "org/repo" 42 0%nat [] []); reflexivity.
Defined.

(** The count of a kind in a trace that is written out. *)
Ltac count_now :=
  repeat match goal with
         | |- context [count ?k (Event ?c ?r :: ?l)] =>
             let v := eval vm_compute in (count k (Event c r :: l)) in
             change (count k (Event c r :: l)) with v
         end.

(** X6. In every run of [review_pr] at most one call to [create_review] is
    made, and when it is made it is the last call of the run: the review is
    published after every file analysis has ended and nothing is asked of
    the host or of the completion service afterwards. *)
Theorem publication_ends_the_run {W} (h : handler W) (self : PRReviewer)
    (name : string) (n : Z) (w : W) :
  let tr := trace_of (run h (review_pr self name n) w) in
  (count KCreateReview tr <= 1)%nat /\
  (count KCreateReview tr = 1%nat -> last (kinds tr) = Some KCreateReview).
Proof.
  cbv zeta. rewrite run_review_pr.
  pose proof (fetch_pr_details_spec h self name n w) as Hf. cbv zeta in Hf.
  destruct (run h (fetch_pr_details self name n) w) as [[[d | e1] w1] tr1];
    unfold value_of, trace_of in *; cbn [fst snd] in *;
    destruct Hf as [_ [Hc1 _]].
  2: { rewrite Hc1. split; [lia | discriminate]. }
  pose proof (analyze_code_changes_spec h self name n w1) as Ha. cbv zeta in Ha.
  destruct (run h (analyze_code_changes self name n) w1)
    as [[[reviews | e2] w2] tr2];
    unfold value_of, trace_of in *; cbn [fst snd] in *;
    destruct Ha as [_ [Hc2 _]].
  2: { rewrite count_app, Hc1, Hc2. split; [lia | discriminate]. }
  rewrite run_post_review.
  destruct (h _ (GetRepo name) w2) as [[repo | e] w3]; cbv beta iota zeta;
    cbn [fst snd].
  2: { rewrite !count_app, Hc1, Hc2. count_now. split; [lia | discriminate]. }
  destruct (h _ (GetPull repo n) w3) as [[pr | e] w4]; cbv beta iota zeta;
    cbn [fst snd].
  2: { rewrite !count_app, Hc1, Hc2. count_now. split; [lia | discriminate]. }
  destruct (h _ (CreateReview pr (review_body_of reviews) "COMMENT") w4)
    as [r3 w5]. cbn [fst snd].
  rewrite !count_app, Hc1, Hc2. count_now. split; [lia |]. intros _.
  rewrite !kinds_app.
  change (kinds [Event (GetRepo name) (Ok repo); Event (GetPull repo n) (Ok pr);
                 Event (CreateReview pr (review_body_of reviews) "COMMENT") r3])
    with ([KGetRepo; KGetPull] ++ [KCreateReview]).
  rewrite !app_assoc. apply last_snoc.
Qed.

(** X7. The batch size is a ceiling on the tasks that run together: in a
    run of [analyze_code_changes] in which the repository, the change
    request and the list of files are fetched, every [gather] is over at
    least one and at most [batch_size] tasks. *)
Theorem gather_sizes_bounded {W} (h : handler W) (self : PRReviewer)
    (name : string) (n : Z) (w w1 w2 w3 : W) (repo : Repository)
    (pr : PullRequest) (fs : list File) :
  1 <= batch_size (config self) ->
  h _ (GetRepo name) w = (Ok repo, w1) ->
  h _ (GetPull repo n) w1 = (Ok pr, w2) ->
  h _ (GetFiles pr) w2 = (Ok fs, w3) ->
  Forall (fun size => 1 <= Z.of_nat size <= batch_size (config self))
         (gathered (trace_of (run h (analyze_code_changes self name n) w))).
Proof.
  intros HB H1 H2 H3.
  destruct (analyze_code_changes_ok HB H1 H2 H3)
    as [batches [reviews [Hb [_ [_ Hg]]]]].
  rewrite Hg. apply Forall_map, Forall_lookup. intros i batch Hi.
  set (B := batch_size (config self)) in *.
  assert (HB' : B = Z.of_nat (Z.to_nat B)) by lia.
  pose proof Hb as Hb'. rewrite HB' in Hb'.
  destruct (chunk_spec (b := Z.to_nat B) ltac:(lia) Hb') as [Hlen Hat].
  destruct (Hat i batch Hi) as [Hsize _].
  rewrite batches_of_chunks in Hb' by lia. injection Hb' as <-.
  rewrite list_lookup_fmap in Hi.
  destruct (seq 0 _ !! i) as [k |] eqn:Hk; [| discriminate].
  apply lookup_seq in Hk as [-> Hlt].
  pose proof (below_ceil (b := Z.to_nat B) ltac:(lia) Hlt) as Hin.
  simpl. rewrite <- HB' in Hsize. nia.
Qed.

Lemma gather_sizes_bounded_witness :
  Forall (fun size => 1 <= Z.of_nat size <= 3)
         (gathered (trace_of (run (Script.scripted Script.two_failures)
            (analyze_code_changes (Script.reviewer 5 3) "org/repo" 42) 0%nat))).
Proof.
  apply (@gather_sizes_bounded nat (Script.scripted Script.two_failures)
           (Script.reviewer 5 3) "org/repo" 42 0%nat 1%nat 2%nat 3%nat
           Script.the_repo Script.the_pull Script.seven_files);
    first [reflexivity | simpl; lia].
Defined.

Lemma publication_ends_the_run_witness :
  let tr := trace_of (run (Script.scripted Script.two_failures)
                        (review_pr (Script.reviewer 5 3) "org/repo" 42) 0%nat) in
  (count KCreateReview tr <= 1)%nat /\ last (kinds tr) = Some KCreateReview.
Proof.
  destruct (@publication_ends_the_run nat (Script.scripted Script.two_failures)
              (Script.reviewer 5 3) "org/repo" 42 0%nat) as [H1 H2].
  split; [exact H1 | apply H2; reflexivity].
Defined.

(** ** The session around a run *)

Lemma review_pr_kinds {W} (h : handler W) (self : PRReviewer)
    (name : string) (n : Z) (w : W) :
  Forall (fun k => review_call k = true)
         (kinds (trace_of (run h (review_pr self name n) w))).
Proof.
  assert (Hbatch : forall ks, Forall (fun k => batch_call k = true) ks ->
                              Forall (fun k => review_call k = true) ks).
  { intros ks H. eapply Forall_impl; [exact H |]. simpl. intros k Hk.
    unfold review_call. destruct k; auto. }
  rewrite run_review_pr, run_fetch_pr_details.
  destruct (h _ (GetRepo name) w) as [[repo0 | e] w1];
    [| repeat constructor].
  destruct (h _ (GetPull repo0 n) w1) as [[pr0 | e] w2];
    [| repeat constructor].
  destruct (h _ (GetFiles pr0) w2) as [[fs0 | e] w3];
    [| repeat constructor].
  cbv beta iota zeta. rewrite run_analyze_code_changes.
  destruct (h _ (GetRepo name) w3) as [[repo | e] w4];
    [| repeat constructor].
  destruct (h _ (GetPull repo n) w4) as [[pr | e] w5];
    [| repeat constructor].
  destruct (h _ (GetFiles pr) w5) as [[fs | e] w6];
    [| repeat constructor].
  cbv beta iota zeta.
  destruct (range 0 _ (batch_size (config self))) as [idxs | e];
    [| repeat constructor].
  pose proof (for_batches_spec h self repo pr
                (slice_to fs (max_files_to_review (config self))) idxs [] w6)
    as [_ [_ Hk]].
  destruct (run h (for_batches self repo pr _ idxs []) w6)
    as [[reviews w7] tr'].
  unfold trace_of in Hk; cbn [fst snd] in Hk. apply Hbatch in Hk.
  assert (Hend : forall post,
             Forall (fun k => review_call k = true) (kinds post) ->
             Forall (fun k => review_call k = true)
                    (kinds (([Event (GetRepo name) (Ok repo0);
                              Event (GetPull repo0 n) (Ok pr0);
                              Event (GetFiles pr0) (Ok fs0)]
                             ++ ([Event (GetRepo name) (Ok repo);
                                  Event (GetPull repo n) (Ok pr);
                                  Event (GetFiles pr) (Ok fs)] ++ tr') ++ post)))).
  { intros post Hpost. rewrite !kinds_app.
    repeat (apply Forall_app; split); try assumption; repeat constructor. }
  rewrite run_post_review.
  destruct (h _ (GetRepo name) w7) as [[repo1 | e] w8]; cbv beta iota zeta.
  2: { apply Hend. repeat constructor. }
  destruct (h _ (GetPull repo1 n) w8) as [[pr1 | e] w9]; cbv beta iota zeta.
  2: { apply Hend. repeat constructor. }
  destruct (h _ (CreateReview pr1 (review_body_of reviews) "COMMENT") w9)
    as [r3 w10].
  apply Hend. repeat constructor.
Qed.

Lemma run_async_with {W A} (h : handler W) (self : PRReviewer)
    (block : PRReviewer -> prog (result A))
    (s : ClientSession) (c : AsyncOpenAI) (w w1 w2 : W) :
  h _ NewSession w = (Ok s, w1) ->
  h _ (NewClient (openai_api_key self)) w1 = (Ok c, w2) ->
  let reviewer := {| github_token := github_token self;
                     openai_api_key := openai_api_key self;
                     config := config self;
                     session := Some s;
                     openai_client := Some c |} in
  let ob := run h (block reviewer) w2 in
  let exc_val := match value_of ob with Ok _ => None | Raise e => Some e end in
  let ox := run h (__aexit__ reviewer exc_val) ob.1.2 in
  run h (async_with self block) w =
    (match value_of ox with Ok _ => value_of ob | Raise e => Raise e end,
     ox.1.2,
     [Event NewSession (Ok s);
      Event (NewClient (openai_api_key self)) (Ok c)]
     ++ trace_of ob ++ trace_of ox).
Proof.
  intros H1 H2 reviewer ob exc_val ox.
  assert (Henter : run h (__aenter__ self) w
                   = (Ok reviewer, w2,
                      [Event NewSession (Ok s);
                       Event (NewClient (openai_api_key self)) (Ok c)])).
  { unfold __aenter__, await. simpl. rewrite H1. simpl. rewrite H2.
    reflexivity. }
  unfold async_with. rewrite run_bind, Henter. cbv beta iota.
  rewrite run_bind. fold ob. subst exc_val ox.
  destruct ob as [[rb wb] trb]. unfold value_of, trace_of. cbn [fst snd].
  rewrite run_bind.
  destruct (run h (__aexit__ reviewer
                     match rb with Ok _ => None | Raise e => Some e end) wb)
    as [[[[] | e] wx] trx]; cbn [fst snd run]; rewrite app_nil_r; reflexivity.
Qed.

(** X8. A run of [main] in which the HTTP session and the completion client
    are created opens each once and closes the session exactly once,
    whatever the outcome of the review ([review_pr] itself never opens or
    closes a handle); a run that returns has closed the client once too, has
    published one review, and its last two calls are the two closes, in the
    order session, client. *)
Theorem main_session_lifecycle {W} (h : handler W) (name : string) (n : Z)
    (s : ClientSession) (c : AsyncOpenAI) (w w1 w2 : W) :
  h _ NewSession w = (Ok s, w1) ->
  h _ (NewClient "xxx") w1 = (Ok c, w2) ->
  let o := run h (main name n) w in
  count KNewSession (trace_of o) = 1%nat /\
  count KNewClient (trace_of o) = 1%nat /\
  count KCloseSession (trace_of o) = 1%nat /\
  (count KCloseClient (trace_of o) <= 1)%nat /\
  (value_of o = Ok tt ->
     count KCloseClient (trace_of o) = 1%nat /\
     (exists reviews,
        published (trace_of o) = [(review_body_of reviews, "COMMENT", true)]) /\
     exists ks, kinds (trace_of o) = ks ++ [KCloseSession; KCloseClient]).
Proof.
  intros H1 H2 o. unfold o, main.
  change (__init__ None None) with (Ok Script.fresh_reviewer).
  cbv beta iota.
  rewrite (@run_async_with W unit h Script.fresh_reviewer
             (fun reviewer => review_pr reviewer name n) s c w w1 w2 H1 H2).
  cbv zeta.
  set (reviewer := {| github_token := github_token Script.fresh_reviewer;
                      openai_api_key := openai_api_key Script.fresh_reviewer;
                      config := config Script.fresh_reviewer;
                      session := Some s; openai_client := Some c |}).
  pose proof (review_pr_kinds h reviewer name n w2) as Hk.
  pose proof (review_pr_spec h reviewer name n w2) as Hspec. cbv zeta in Hspec.
  destruct (run h (review_pr reviewer name n) w2) as [[rb wb] trb].
  unfold value_of, trace_of in *. cbn [fst snd] in *.
  rewrite (@run_aexit W h reviewer s c _ wb eq_refl eq_refl).
  destruct (h _ (CloseSession s) wb) as [[[] | e] wx].
  - destruct (h _ (CloseClient c) wx) as [r2 wy]. cbn [fst snd].
    rewrite !count_app, !(count_none Hk) by reflexivity. count_now.
    split; [lia |]. split; [lia |]. split; [lia |]. split; [lia |].
    intros Hv. destruct r2 as [[] | e2]; [| discriminate Hv]. subst rb.
    split; [lia |]. split.
    + destruct Hspec as (_ & _ & _ & _ & _ & reviews & Hp).
      exists reviews. rewrite !published_app, Hp. reflexivity.
    + exists ([KNewSession; KNewClient] ++ kinds trb).
      rewrite !kinds_app, <- !app_assoc. reflexivity.
  - cbn [fst snd].
    rewrite !count_app, !(count_none Hk) by reflexivity. count_now.
    split; [lia |]. split; [lia |]. split; [lia |]. split; [lia |].
    intros Hv. discriminate Hv.
Qed.

Lemma main_session_lifecycle_witness :
  let o := run (Script.scripted Script.two_failures) (main "org/repo" 42) 0%nat in
  count KNewSession (trace_of o) = 1%nat /\
  count KNewClient (trace_of o) = 1%nat /\
  count KCloseSession (trace_of o) = 1%nat /\
  count KCloseClient (trace_of o) = 1%nat /\
  (exists reviews,
     published (trace_of o) = [(review_body_of reviews, "COMMENT", true)]) /\
  exists ks, kinds (trace_of o) = ks ++ [KCloseSession; KCloseClient].
Proof.
  destruct (@main_session_lifecycle nat (Script.scripted Script.two_failures)
              "org/repo" 42 {| session_id := 0 |}
              {| client_id := 1; api_key := "xxx" |} 0%nat 1%nat 2%nat
              eq_refl eq_refl) as (H1 & H2 & H3 & _ & H5).
  destruct (H5 eq_refl) as (H6 & H7 & H8).
  repeat split; assumption.
Defined.

(** X9. When [__aenter__] fails the block is not run and [__aexit__] is not
    called.  If the HTTP session cannot be created, nothing else happens; if
    the session is created and the completion client cannot be, the run ends
    with the exception of the client and the session that was created is
    never closed. *)
Theorem failed_enter_skips_release {W A} (h : handler W) (self : PRReviewer)
    (block : PRReviewer -> prog (result A)) (w w1 : W) :
  (forall e, h _ NewSession w = (Raise e, w1) ->
     run h (async_with self block) w
       = (Raise e, w1, [Event NewSession (Raise e)])) /\
  (forall s e w2,
     h _ NewSession w = (Ok s, w1) ->
     h _ (NewClient (openai_api_key self)) w1 = (Raise e, w2) ->
     run h (async_with self block) w
       = (Raise e, w2,
          [Event NewSession (Ok s);
           Event (NewClient (openai_api_key self)) (Raise e)]) /\
     count KCloseSession (trace_of (run h (async_with self block) w)) = 0%nat).
Proof.
  split.
  - intros e H1. unfold async_with, __aenter__, await. simpl. rewrite H1.
    reflexivity.
  - intros s e w2 H1 H2.
    assert (Hrun : run h (async_with self block) w
                   = (Raise e, w2,
                      [Event NewSession (Ok s);
                       Event (NewClient (openai_api_key self)) (Raise e)])).
    { unfold async_with, __aenter__, await. simpl. rewrite H1. simpl.
      rewrite H2. reflexivity. }
    split; [exact Hrun |]. rewrite Hrun. reflexivity.
Qed.

Lemma failed_enter_skips_release_witness :
  let o := run (Script.no_client Script.two_failures) (main "org/repo" 42) 0%nat in
  value_of o = Raise (Exception "OpenAIError" "client could not be created") /\
  kinds (trace_of o) = [KNewSession; KNewClient] /\
  count KCloseSession (trace_of o) = 0%nat.
Proof.
  destruct (proj2 (@failed_enter_skips_release nat unit
              (Script.no_client Script.two_failures) Script.fresh_reviewer
              (fun reviewer => review_pr reviewer "org/repo" 42) 0%nat 1%nat)
              {| session_id := 0 |}
              (Exception "OpenAIError" "client could not be created") 2%nat
              eq_refl eq_refl) as [Hrun Hc].
  change (main "org/repo" 42)
    with (async_with Script.fresh_reviewer
            (fun reviewer => review_pr reviewer "org/repo" 42)).
  rewrite Hrun. repeat split.
Defined.

(** ** The constructor *)

(** X10. Because the module assigns both keys of [os.environ] when it is
    loaded, [PRReviewer(...)] never raises its [ValueError], whatever the
    arguments and whatever the environment was: a token given and not empty
    is kept, and otherwise the token is ["xxx"], not the one of the
    environment.  Without these assignments, [PRReviewer()] returns exactly
    when both environment variables are set and not empty. *)
Theorem constructor_never_raises (env : gmap string string)
    (token key : option string) :
  init_in (load_module env) token key = __init__ token key /\
  (exists reviewer,
      __init__ token key = Ok reviewer /\
      github_token reviewer
        = match token with Some (String c t) => String c t | _ => "xxx" end /\
      openai_api_key reviewer
        = match key with Some (String c k) => String c k | _ => "xxx" end /\
      config reviewer = default_config /\
      session reviewer = None /\ openai_client reviewer = None) /\
  (is_ok (init_in env None None) = true <->
   (exists c t, env !! "GITHUB_TOKEN" = Some (String c t)) /\
   (exists c k, env !! "OPENAI_API_KEY" = Some (String c k))).
Proof.
  split; [| split].
  - unfold init_in, __init__, load_module, env_GITHUB_TOKEN, env_OPENAI_API_KEY.
    rewrite lookup_insert_eq, lookup_insert_ne by discriminate.
    rewrite lookup_insert_eq. reflexivity.
  - unfold __init__, env_GITHUB_TOKEN, env_OPENAI_API_KEY.
    destruct token as [[| c t] |], key as [[| c' k] |]; simpl;
      eexists; repeat split.
  - unfold init_in. simpl.
    destruct (env !! "GITHUB_TOKEN") as [[| c t] |];
      destruct (env !! "OPENAI_API_KEY") as [[| c' k] |]; simpl;
      split; try discriminate; try (intros _; split; eauto);
      intros [[? [? ?]] [? [? ?]]]; congruence.
Qed.

Lemma constructor_never_raises_witness :
  init_in (load_module ∅) (Some "ghp_token") None
    = __init__ (Some "ghp_token") None /\
  is_ok (init_in (<["GITHUB_TOKEN" := "a"]> (<["OPENAI_API_KEY" := "b"]> ∅))
                 None None) = true.
Proof.
  split.
  - apply (constructor_never_raises ∅ (Some "ghp_token") None).
  - apply (proj2 (proj2 (constructor_never_raises
             (<["GITHUB_TOKEN" := "a"]> (<["OPENAI_API_KEY" := "b"]> ∅))
             None None))).
    split; [exists "a"%char, ""; reflexivity | exists "b"%char, ""; reflexivity].
Defined.

(** ** The language key and the rules *)

Lemma lower_ascii_dot (c : ascii) :
  Ascii.eqb (lower_ascii c) "." = Ascii.eqb c ".".
Proof. destruct c as [[] [] [] [] [] [] [] []]; reflexivity. Qed.

Lemma lower_ascii_twice (c : ascii) : lower_ascii (lower_ascii c) = lower_ascii c.
Proof. destruct c as [[] [] [] [] [] [] [] []]; reflexivity. Qed.

Lemma lower_twice (s : string) : lower (lower s) = lower s.
Proof.
  induction s as [| c s IH]; simpl; [reflexivity |].
  rewrite lower_ascii_twice, IH. reflexivity.
Qed.

Lemma split_lower (s : string) :
  split "." (lower s) = map lower (split "." s).
Proof.
  induction s as [| c s IH]; simpl; [reflexivity |].
  rewrite lower_ascii_dot, IH.
  destruct (Ascii.eqb c "."); [reflexivity |].
  pose proof (@split_nonempty "." s) as Hne.
  destruct (split "." s) as [| p ps]; [congruence | reflexivity].
Qed.

Lemma last_map {A B} (f : A -> B) (l : list A) :
  last (map f l) = option_map f (last l).
Proof.
  induction l as [| a l IH]; [reflexivity |].
  destruct l as [| b l]; [reflexivity |]. exact IH.
Qed.

(** X11. The language key does not depend on the case of the ASCII letters
    of the path: two paths that agree up to that case have the same key, and
    so get the same rules (["App.PY"] is reviewed under the key of
    ["app.py"]). *)
Theorem language_key_ignores_case (cfg : PRReviewConfig) (p q : string) :
  lower p = lower q ->
  file_ext_of p = file_ext_of q /\
  (forall key, file_ext_of p = Ok key ->
     lower key = key /\
     language_rules_of cfg key
       = match file_ext_of q with
         | Ok key' => language_rules_of cfg key'
         | Raise _ => []
         end).
Proof.
  intros Hpq.
  assert (Hlow : forall s, file_ext_of (lower s) = file_ext_of s).
  { intros s. unfold file_ext_of, index_last.
    rewrite split_lower, last_map.
    destruct (last (split "." s)); simpl; [rewrite lower_twice |]; reflexivity. }
  assert (Heq : file_ext_of p = file_ext_of q).
  { rewrite <- (Hlow p), <- (Hlow q), Hpq. reflexivity. }
  split; [exact Heq |]. intros key Hkey. split.
  - unfold file_ext_of in Hkey.
    destruct (index_last (split "." p)); [| discriminate].
    injection Hkey as <-. apply lower_twice.
  - rewrite <- Heq, Hkey. reflexivity.
Qed.

Lemma language_key_ignores_case_witness :
  file_ext_of "src/App.PY" = file_ext_of "SRC/app.py" /\
  file_ext_of "src/App.PY" = Ok "py".
Proof.
  destruct (@language_key_ignores_case default_config "src/App.PY" "SRC/app.py"
              eq_refl) as [H _].
  split; [exact H | reflexivity].
Defined.

(** X12. Under the default configuration the rule sets are keyed by the
    names ["python"] and ["javascript"], and the key of a path is its
    lower-cased suffix (the whole path when it has no ['.']): every key but
    these two gets the empty rule list, and the Python rules go to the key
    ["python"] and to no other.  So a path that ends in [".py"] or [".js"]
    is reviewed without rules, and a path that ends in [".python"] gets the
    Python rules. *)
Theorem default_rules_keyed_by_name :
  (forall key : string,
      key <> "python" -> key <> "javascript" ->
      language_rules_of default_config key = []) /\
  (forall key : string,
      language_rules_of default_config key
        = ["PEP 8 compliance"; "Type hints"; "Docstrings";
           "Error handling"; "Code complexity"]
      <-> key = "python") /\
  (forall pre : string,
      (exists key, file_ext_of (pre +:+ ".py") = Ok key /\
                   language_rules_of default_config key = []) /\
      (exists key, file_ext_of (pre +:+ ".js") = Ok key /\
                   language_rules_of default_config key = []) /\
      (exists key, file_ext_of (pre +:+ ".python") = Ok key /\
                   language_rules_of default_config key
                     = ["PEP 8 compliance"; "Type hints"; "Docstrings";
                        "Error handling"; "Code complexity"])).
Proof.
  assert (Hother : forall key : string,
             key <> "python" -> key <> "javascript" ->
             language_rules_of default_config key = []).
  { intros key Hp Hj. unfold language_rules_of, dict_get, default_config. simpl.
    rewrite lookup_insert_ne by congruence.
    rewrite lookup_insert_ne by congruence.
    rewrite lookup_empty. reflexivity. }
  split; [exact Hother |]. split.
  - intros key. split.
    + intros Hrules. destruct (decide (key = "python")) as [| Hp]; [assumption |].
      destruct (decide (key = "javascript")) as [-> | Hj].
      * vm_compute in Hrules. discriminate Hrules.
      * rewrite (Hother key Hp Hj) in Hrules. discriminate Hrules.
    + intros ->. reflexivity.
  - intros pre.
    assert (Hext : forall suffix, has_char "." suffix = false ->
              file_ext_of (pre +:+ String "." suffix) = Ok (lower suffix)).
    { intros suffix Hs. unfold file_ext_of, index_last.
      rewrite split_app, (split_without Hs), last_snoc. reflexivity. }
    split; [| split].
    + exists "py". split; [apply (Hext "py"); reflexivity | reflexivity].
    + exists "js". split; [apply (Hext "js"); reflexivity | reflexivity].
    + exists "python". split; [apply (Hext "python"); reflexivity | reflexivity].
Qed.

Lemma default_rules_keyed_by_name_witness :
  language_rules_of default_config "md" = [] /\
  (exists key, file_ext_of "python" = Ok key /\
               language_rules_of default_config key
                 = ["PEP 8 compliance"; "Type hints"; "Docstrings";
                    "Error handling"; "Code complexity"]) /\
  (exists key, file_ext_of "tools/x.PYTHON" = Ok key /\
               language_rules_of default_config key
                 = ["PEP 8 compliance"; "Type hints"; "Docstrings";
                    "Error handling"; "Code complexity"]).
Proof.
  destruct default_rules_keyed_by_name as [H1 [H2 _]].
  split; [apply (H1 "md"); discriminate |].
  split; exists "python"; (split; [reflexivity | apply (H2 "python"); reflexivity]).
Defined.

(** ** What the configuration and the reviewer are read for *)

Lemma analyze_file_same (self1 self2 : PRReviewer) (repo : Repository)
    (pr : PullRequest) (file : File) :
  openai_model (config self1) = openai_model (config self2) ->
  openai_temperature (config self1) = openai_temperature (config self2) ->
  language_specific_rules (config self1) = language_specific_rules (config self2) ->
  openai_client self1 = openai_client self2 ->
  _analyze_file self1 repo pr file = _analyze_file self2 repo pr file.
Proof.
  destruct self1 as [t1 k1 [mf1 mc1 m1 temp1 b1 cats1 rules1 ign1] s1 c1].
  destruct self2 as [t2 k2 [mf2 mc2 m2 temp2 b2 cats2 rules2 ign2] s2 c2].
  simpl. intros -> -> -> ->. reflexivity.
Qed.

Lemma for_batches_same {W} (h : handler W) (self1 self2 : PRReviewer)
    (repo : Repository) (pr : PullRequest) (files : list File) :
  batch_size (config self1) = batch_size (config self2) ->
  (forall file, _analyze_file self1 repo pr file
                = _analyze_file self2 repo pr file) ->
  forall (idxs : list Z) (reviews : list Review) (w : W),
    run h (for_batches self1 repo pr files idxs reviews) w
      = run h (for_batches self2 repo pr files idxs reviews) w.
Proof.
  intros HB Hsame. induction idxs as [| i idxs IH]; intros reviews w;
    cbn [for_batches]; [reflexivity |].
  cbv zeta. rewrite !run_bind, HB.
  rewrite (map_ext _ _ Hsame).
  destruct (run h (gather _) w) as [[results w1] tr1].
  rewrite IH. reflexivity.
Qed.

(** X13. Two reviewers that agree on the GitHub token (from which
    [self.github], the client of every call to the host, is built), the
    maximum of files, the batch size, the model, the temperature, the rule
    sets and the completion client make the same run of [review_pr] against
    any outside (the same calls, the same outcome).  The ignore patterns, the
    maximum of changes per file and the review categories are never
    consulted (a file that matches ["*.md"] is analysed like any other), and
    no request goes through the HTTP session. *)
Theorem unused_settings {W} (h : handler W) (self1 self2 : PRReviewer)
    (name : string) (n : Z) (w : W) :
  github_token self1 = github_token self2 ->
  max_files_to_review (config self1) = max_files_to_review (config self2) ->
  batch_size (config self1) = batch_size (config self2) ->
  openai_model (config self1) = openai_model (config self2) ->
  openai_temperature (config self1) = openai_temperature (config self2) ->
  language_specific_rules (config self1) = language_specific_rules (config self2) ->
  openai_client self1 = openai_client self2 ->
  run h (review_pr self1 name n) w = run h (review_pr self2 name n) w.
Proof.
  intros _ Hmax HB Hmodel Htemp Hrules Hclient.
  rewrite !run_review_pr.
  change (fetch_pr_details self1 name n) with (fetch_pr_details self2 name n).
  destruct (run h (fetch_pr_details self2 name n) w) as [[[d | e] w1] tr1];
    [| reflexivity].
  assert (Ha : run h (analyze_code_changes self1 name n) w1
               = run h (analyze_code_changes self2 name n) w1).
  { rewrite !run_analyze_code_changes.
    destruct (h _ (GetRepo name) w1) as [[repo | e] w2]; [| reflexivity].
    destruct (h _ (GetPull repo n) w2) as [[pr | e] w3]; [| reflexivity].
    destruct (h _ (GetFiles pr) w3) as [[fs | e] w4]; [| reflexivity].
    cbv zeta. rewrite Hmax, HB.
    destruct (range 0 _ (batch_size (config self2))) as [idxs | e];
      [| reflexivity].
    rewrite (@for_batches_same W h self1 self2 repo pr _ HB
               (fun f => analyze_file_same repo pr f Hmodel Htemp Hrules Hclient)).
    reflexivity. }
  rewrite Ha.
  destruct (run h (analyze_code_changes self2 name n) w1)
    as [[[reviews | e] w2] tr2]; reflexivity.
Qed.

Lemma unused_settings_witness :
  run (Script.scripted Script.two_failures)
      (review_pr (Script.reviewer 5 3) "org/repo" 42) 0%nat
  = run (Script.scripted Script.two_failures)
      (review_pr {| github_token := "xxx"; openai_api_key := "other";
                    config := {| max_files_to_review := 5;
                                 max_changes_per_file := 0;
                                 openai_model := "gpt-4";
                                 openai_temperature := Qmake 3 10;
                                 batch_size := 3;
                                 review_categories := [];
                                 language_specific_rules :=
                                   language_specific_rules default_config;
                                 ignore_patterns := ["*"] |};
                    session := None;
                    openai_client :=
                      Some {| client_id := 1; api_key := "xxx" |} |}
                 "org/repo" 42) 0%nat.
Proof.
  apply unused_settings; reflexivity.
Defined.

(** ** The review of one file, by the answers its task got *)

(** X14. In a batch, whatever the schedule: when the task of a file got its
    content (decoded, or a directory listing), then a completion with at
    least one choice, then the time [t], its review carries the name of the
    file, the message content of the first choice (be it [None]) and [t];
    when the completion has no choice at all, the review is the error text
    of the [IndexError]. *)
Theorem completed_review {W} (h : handler W) (self : PRReviewer)
    (repo : Repository) (pr : PullRequest) (batch : list File) (w : W)
    (j : nat) (file : File) (client : AsyncOpenAI) (c : Contents)
    (text : string) (response : ChatCompletion) (rest : list answer) :
  batch !! j = Some file ->
  openai_client self = Some client ->
  file_content_of c = Ok text ->
  let o := run h (gather (map (_analyze_file self repo pr) batch)) w in
  view j (trace_of o) = AContents (Ok c) :: AChat (Ok response) :: rest ->
  exists t,
    rest = [ATime t] /\
    value_of o !! j
      = Some (Ok {| r_filename := filename file;
                    r_analysis :=
                      match choices response with
                      | first :: _ => first
                      | [] => Some "Error analyzing file: list index out of range"
                      end;
                    r_timestamp := t |}).
Proof.
  intros Hj Hclient Htext o Hview.
  destruct (gather_local h (map (_analyze_file self repo pr) batch) w)
    as [_ Hloc].
  destruct (Hloc j (_analyze_file self repo pr file)) as [r [Hr Hfeed]].
  { rewrite list_lookup_fmap, Hj. reflexivity. }
  fold o in Hr, Hfeed. rewrite Hview in Hfeed. rewrite Hr. clear Hr Hloc Hview.
  destruct (review_messages_shape (config self) text (filename file)
              (or_empty (patch file))) as [ext [_ Hm]].
  unfold _analyze_file, _analyze_file_content, try_except, reraise, await,
    client_of in Hfeed.
  rewrite Hclient in Hfeed. simpl in Hfeed. rewrite Htext in Hfeed.
  simpl in Hfeed. rewrite Hm in Hfeed. simpl in Hfeed.
  destruct (choices response) as [| first others]; simpl in Hfeed;
    repeat feed_next Hfeed; injection Hfeed as <-; eexists;
    (split; [reflexivity |]); reflexivity.
Qed.

Lemma completed_review_witness :
  let o := run (Script.scripted Script.two_failures)
               (gather (map (_analyze_file (Script.reviewer 5 3)
                               Script.the_repo Script.the_pull)
                            (take 3 Script.seven_files))) 0%nat in
  exists t,
    value_of o !! 0%nat
      = Some (Ok {| r_filename := "a.py";
                    r_analysis := Some "Looks good.";
                    r_timestamp := t |}).
Proof.
  destruct (@completed_review nat (Script.scripted Script.two_failures)
              (Script.reviewer 5 3) Script.the_repo Script.the_pull
              (take 3 Script.seven_files) 0%nat 0%nat (Script.file "a.py")
              {| client_id := 1; api_key := "xxx" |}
              (ContentFile (Ok "content of a.py")) "content of a.py"
              {| choices := [Some "Looks good."] |} [ATime "7"]
              eq_refl eq_refl eq_refl eq_refl) as [t [_ Hv]].
  exists t. exact Hv.
Defined.

(** X15. In a batch, whatever the schedule: a file whose content cannot be
    decoded as UTF-8 is not sent to the completion service; its task reads
    the clock and returns the error text of the decoding error.  The same
    holds of a file whose content fetch raised. *)
Theorem undecodable_content_not_submitted {W} (h : handler W)
    (self : PRReviewer) (repo : Repository) (pr : PullRequest)
    (batch : list File) (w : W) (j : nat) (file : File) (e : exn)
    (rest : list answer) :
  batch !! j = Some file ->
  let o := run h (gather (map (_analyze_file self repo pr) batch)) w in
  view j (trace_of o) = AContents (Ok (ContentFile (Raise e))) :: rest \/
  view j (trace_of o) = AContents (Raise e) :: rest ->
  exists t,
    rest = [ATime t] /\
    value_of o !! j
      = Some (Ok {| r_filename := filename file;
                    r_analysis := Some ("Error analyzing file: " +:+ str e);
                    r_timestamp := t |}).
Proof.
  intros Hj o Hview.
  destruct (gather_local h (map (_analyze_file self repo pr) batch) w)
    as [_ Hloc].
  destruct (Hloc j (_analyze_file self repo pr file)) as [r [Hr Hfeed]].
  { rewrite list_lookup_fmap, Hj. reflexivity. }
  fold o in Hr, Hfeed. rewrite Hr. clear Hr Hloc.
  unfold _analyze_file, _analyze_file_content, try_except, reraise, await
    in Hfeed.
  destruct Hview as [Hview | Hview]; rewrite Hview in Hfeed; simpl in Hfeed;
    repeat feed_next Hfeed; injection Hfeed as <-; eexists;
    (split; [reflexivity |]); reflexivity.
Qed.

Lemma undecodable_content_not_submitted_witness :
  let o := run (Script.scripted Script.two_failures)
               (gather (map (_analyze_file (Script.reviewer 5 3)
                               Script.the_repo Script.the_pull)
                            (take 3 Script.seven_files))) 0%nat in
  exists t,
    value_of o !! 1%nat
      = Some (Ok {| r_filename := "b.js";
                    r_analysis := Some "Error analyzing file: 404 Not Found";
                    r_timestamp := t |}).
Proof.
  destruct (@undecodable_content_not_submitted nat
              (Script.scripted Script.two_failures)
              (Script.reviewer 5 3) Script.the_repo Script.the_pull
              (take 3 Script.seven_files) 0%nat 1%nat (Script.file "b.js")
              (Exception "GithubException" "404 Not Found") [ATime "4"]
              eq_refl (or_intror eq_refl)) as [t [_ Hv]].
  exists t. exact Hv.
Defined.
